(** * gaipal: the retrieval-augmented chat application [app.py]

    A shallow embedding of [src/app.py] and the properties of its start-up
    script, its prompt chain, its message handler and its credential check.

    The file follows the layout of the program:
    - [Py]       the Python values the program manipulates (results,
                 exceptions, documents, [str.join], [str()] of a value);
    - [Prompt]   the prompt template of [on_chat_start] and its rendering;
    - [Store]    the vector store, its persistence and the retriever;
    - [Startup]  the module-level start-up script (lines 25-77);
    - [Chat]     [on_chat_start], [on_message] and [PostMessageHandler];
    - [Auth]     [auth_callback].

    LangChain, Chroma, llama.cpp and Chainlit are libraries outside the
    repository; they are modelled by the part of their documented behaviour
    the program relies on, and each such model says so. *)

From Stdlib Require Import Ascii String QArith Sorted.
From stdpp Require Import base decidable countable strings pretty list gmap.

Set Warnings "-register-all,-clear-no-such-hyp".

Open Scope Z_scope.
Open Scope string_scope.
Open Scope list_scope.

(* ===================================================================== *)
(** ** Python values                                                       *)
(* ===================================================================== *)

Module Py.

(** The exceptions that travel through the program. *)
Inductive Exn : Type :=
| KeyError (key : string)
| ValueError (what : string)
| RetrievalError (what : string)
| GenerationError (what : string)
| IngestionError (what : string)
| TypeError (what : string)
| FileNotFoundError (path : string).

(** A computation that returns or raises. *)
Inductive Result (A : Type) : Type :=
| Ok (a : A)
| Raise (e : Exn).
Arguments Ok {A} a.
Arguments Raise {A} e.

(** The double-quote character, which the prompt template is full of. *)
Definition dq : string := String (Ascii.ascii_of_nat 34) EmptyString.
(** ["\n"] of a Python literal. *)
Definition nl : string := String (Ascii.ascii_of_nat 10) EmptyString.

(** [sep.join(parts)] *)
Fixpoint join (sep : string) (parts : list string) : string :=
  match parts with
  | [] => ""
  | [p] => p
  | p :: rest => p ++ sep ++ join sep rest
  end.

(** The values found in a document's [metadata] dictionary: the loaders
    store the file path as a [str] and the page number as an [int]. *)
Inductive MetaVal : Type :=
| MStr (s : string)
| MInt (z : Z).

#[global] Instance MetaVal_eq_dec : EqDecision MetaVal.
Proof. solve_decision. Defined.

Definition MetaVal_to_sum (v : MetaVal) : string + Z :=
  match v with MStr s => inl s | MInt z => inr z end.
Definition MetaVal_of_sum (v : string + Z) : MetaVal :=
  match v with inl s => MStr s | inr z => MInt z end.

#[global] Instance MetaVal_countable : Countable MetaVal.
Proof.
  apply (inj_countable' MetaVal_to_sum MetaVal_of_sum).
  intros []; reflexivity.
Defined.

(** [str(v)], which is what an f-string field [{v}] renders. *)
Definition str (v : MetaVal) : string :=
  match v with
  | MStr s => s
  | MInt z => pretty z
  end.

(** [langchain.schema.Document] *)
Record Document : Type := mkDocument {
  page_content : string;
  metadata : gmap string MetaVal;
}.

(** [d[key]] on a dictionary: the value, or [KeyError]. *)
Definition getitem {V} (d : gmap string V) (key : string) : Result V :=
  match d !! key with
  | Some v => Ok v
  | None => Raise (KeyError key)
  end.

(** A value read by [yaml.safe_load]: scalars and mappings (a mapping
    is kept as its items in file order, with distinct keys). *)
Inductive Yaml : Type :=
| YStr (s : string)
| YInt (z : Z)
| YNum (q : Q)
| YMap (items : list (string * Yaml)).

Fixpoint assoc {V} (key : string) (items : list (string * V)) : option V :=
  match items with
  | [] => None
  | (k, v) :: rest => if decide (k = key) then Some v else assoc key rest
  end.

(** [y[key]] on a value read from YAML. *)
Definition subscript (y : Yaml) (key : string) : Result Yaml :=
  match y with
  | YMap items =>
      match assoc key items with
      | Some v => Ok v
      | None => Raise (KeyError key)
      end
  | _ => Raise (TypeError "indices must be integers")
  end.

End Py.
Export Py.

(* ===================================================================== *)
(** ** The prompt template                                                 *)
(* ===================================================================== *)

Module Prompt.

(** A parsed format string: literal text and replacement fields, as
    [string.Formatter().parse] yields them. *)
Inductive Piece : Type :=
| Lit (text : string)
| Field (name : string).

Definition snoc (s : string) (c : ascii) : string := s ++ String c "".

Definition cons_piece (p : Piece) (r : Result (list Piece)) : Result (list Piece) :=
  match r with
  | Ok ps => Ok (p :: ps)
  | Raise e => Raise e
  end.

(** The scanner of [str.format] templates. [field] is [None] in literal
    text and [Some name] inside a replacement field whose name read so
    far is [name]; doubled braces are the escapes of single ones.
    Conversions and format specifications do not occur in the program's
    template and are not interpreted. *)
Fixpoint parse_go (t : string) (lit : string) (field : option string)
  : Result (list Piece) :=
  match t, field with
  | EmptyString, None => Ok [Lit lit]
  | EmptyString, Some _ => Raise (ValueError "expected '}' before end of string")
  | String "{" (String "{" t'), None => parse_go t' (snoc lit "{") None
  | String "}" (String "}" t'), None => parse_go t' (snoc lit "}") None
  | String "{" t', None => cons_piece (Lit lit) (parse_go t' "" (Some ""))
  | String "}" _, None => Raise (ValueError "Single '}' encountered in format string")
  | String c t', None => parse_go t' (snoc lit c) None
  | String "}" t', Some name => cons_piece (Field name) (parse_go t' "" None)
  | String c t', Some name => parse_go t' lit (Some (snoc name c))
  end.

Definition parse (t : string) : Result (list Piece) := parse_go t "" None.

(** The names of the replacement fields, in order of appearance. *)
Fixpoint field_names (ps : list Piece) : list string :=
  match ps with
  | [] => []
  | Lit _ :: r => field_names r
  | Field n :: r => n :: field_names r
  end.

(** [ChatPromptTemplate]: the parsed template; its [input_variables] are
    the names of its fields. *)
Record ChatPromptTemplate : Type := mkTemplate {
  pieces : list Piece;
}.

Definition input_variables (p : ChatPromptTemplate) : list string :=
  field_names (pieces p).

(** [ChatPromptTemplate.from_template(template)] *)
Definition from_template (t : string) : Result ChatPromptTemplate :=
  match parse t with
  | Ok ps => Ok (mkTemplate ps)
  | Raise e => Raise e
  end.

(** The first input variable the mapping lacks, if any. *)
Fixpoint first_missing (vars : list string) (inputs : gmap string string)
  : option string :=
  match vars with
  | [] => None
  | v :: r =>
      match inputs !! v with
      | Some _ => first_missing r inputs
      | None => Some v
      end
  end.

Definition subst (inputs : gmap string string) (p : Piece) : string :=
  match p with
  | Lit s => s
  | Field n => default "" (inputs !! n)
  end.

Fixpoint concat_strings (l : list string) : string :=
  match l with
  | [] => ""
  | s :: r => s ++ concat_strings r
  end.

(** Rendering: the prompt checks that the mapping it receives has every
    input variable (a missing one is a [KeyError]) and substitutes. The
    single human message it produces reaches a text-completion model as
    the string ["Human: " ++ text]. *)
Definition format (p : ChatPromptTemplate) (inputs : gmap string string)
  : Result string :=
  match first_missing (input_variables p) inputs with
  | Some v => Raise (KeyError v)
  | None => Ok (concat_strings (map (subst inputs) (pieces p)))
  end.

Definition to_string (text : string) : string := "Human: " ++ text.

(** The indentation of the template's lines inside [on_chat_start]. *)
Definition ind : string := "            ".

(** A line of the template that is a quoted fragment: indentation, the
    quote, the text, the closing quote, the end of the line. *)
Definition quoted (text : string) : string := ind ++ dq ++ text ++ dq ++ nl.

(** [template] of [on_chat_start] (lines 109-121): the triple-quoted
    literal, its quote characters included, a backslash-n of the source
    being a line feed. *)
Definition template : string :=
  nl
  ++ quoted ("system" ++ nl)
  ++ quoted "You are an AI assistant for Generative AI Policy Insights, developed by the Boston University's GenAI Task Force. Your main mission is to help users understand how different organizations perceive and make policies regarding the use of GenAI. Answer the user's question using the provided context that is relevant. The context is ordered by relevance. "
  ++ quoted "If you don't know the answer, do your best without making things up. If you cannot answer, just say you don't have enough relevant information to answer the questions. Keep the conversation flowing naturally. "
  ++ quoted "Always cite the source of the information. Use the source context that is most relevant. "
  ++ quoted ("Keep the answer concise, yet professional and informative. Avoid sounding repetitive or robotic." ++ nl)
  ++ quoted (nl ++ nl)
  ++ quoted ("user" ++ nl)
  ++ quoted ("Context:" ++ nl ++ "{context}" ++ nl ++ nl)
  ++ quoted ("Question: {input}" ++ nl)
  ++ quoted (nl ++ nl)
  ++ ind ++ dq ++ "assistant" ++ dq ++ nl
  ++ "    ".

(** [format_docs] of [on_chat_start] *)
Definition format_docs (docs : list Document) : string :=
  join (nl ++ nl) (map page_content docs).

(** The mapping the first step of the chain produces:
    [{"context": retriever | format_docs, "question": RunnablePassthrough()}] *)
Definition chain_inputs (docs : list Document) (question : string)
  : gmap string string :=
  {[ "context" := format_docs docs; "question" := question ]}.

End Prompt.

(* ===================================================================== *)
(** ** The vector store and the retriever                                  *)
(* ===================================================================== *)

Module Store.

(** An embedding vector. The floating-point numbers of the embedding
    model are carried as exact rationals; nothing below depends on
    rounding. *)
Definition Vec : Type := list Q.

(** The keyword arguments of [HuggingFaceEmbeddings(...)], lines 33-40. *)
Record HuggingFaceEmbeddings : Type := mkEmbeddings {
  model_name : Yaml;
  device : string;
  token : string;
  trust_remote_code : bool;
}.

(** One stored chunk with its vector. *)
Record Entry : Type := mkEntry {
  entry_doc : Document;
  entry_vec : Vec;
}.

(** A [Chroma] handle: where it persists, the embedding function it was
    given, and the collection it serves. *)
Record Chroma : Type := mkChroma {
  persist_directory : string;
  embedding_function : HuggingFaceEmbeddings;
  collection : list Entry;
}.

(** The file a persistent Chroma client keeps its collection in. *)
Definition sqlite_file (directory : string) : string :=
  directory ++ "/chroma.sqlite3".

(** Squared Euclidean distance, the default metric of a collection. *)
Fixpoint l2 (a b : Vec) : Q :=
  match a, b with
  | x :: a', y :: b' => (x - y) * (x - y) + l2 a' b'
  | _, _ => 0
  end.

(** [a] is no farther from the query vector than [b]. *)
Definition nearer (q : Vec) (a b : Entry) : Prop :=
  (l2 q (entry_vec a) <= l2 q (entry_vec b))%Q.

(** Insertion of an entry, stored earlier than those of [ranked], among
    entries ranked by distance to the query vector [q]: it goes before the
    first one that is not nearer. *)
Fixpoint insert_ranked (q : Vec) (e : Entry) (ranked : list Entry) : list Entry :=
  match ranked with
  | [] => [e]
  | r :: rest =>
      if Qle_bool (l2 q (entry_vec e)) (l2 q (entry_vec r))
      then e :: r :: rest
      else r :: insert_ranked q e rest
  end.

(** Entries by increasing distance; equal distances keep insertion order. *)
Definition rank (q : Vec) (es : list Entry) : list Entry :=
  foldr (insert_ranked q) [] es.

Section WithModel.

(** What the embedding model computes for a text. *)
Variable embed : HuggingFaceEmbeddings -> string -> Vec.

(** [Chroma.similarity_search(query, k)]: the query is embedded with
    the store's embedding function and the [k] nearest entries are
    returned, nearest first. *)
Definition similarity_search (vs : Chroma) (query : string) (k : nat)
  : list Document :=
  map entry_doc
      (take k (rank (embed (embedding_function vs) query) (collection vs))).

(** [vectorstore.as_retriever(search_type=..., search_kwargs={"k": ...})] *)
Record VectorStoreRetriever : Type := mkRetriever {
  vectorstore : Chroma;
  search_type : string;
  search_k : nat;
}.

Definition as_retriever (vs : Chroma) (search_type : string) (k : nat)
  : VectorStoreRetriever :=
  mkRetriever vs search_type k.

(** Invoking a retriever: the similarity search type is the only one
    the program asks for. *)
Definition get_relevant_documents (r : VectorStoreRetriever) (query : string)
  : Result (list Document) :=
  if decide (search_type r = "similarity")
  then Ok (similarity_search (vectorstore r) query (search_k r))
  else Raise (ValueError "search_type of the retriever is not handled").

(** [Chroma.from_documents]: every document's text is embedded. *)
Definition embed_documents (em : HuggingFaceEmbeddings) (docs : list Document)
  : list Entry :=
  map (fun d => mkEntry d (embed em (page_content d))) docs.

End WithModel.

End Store.

(* ===================================================================== *)
(** ** The start-up script (lines 25-77)                                   *)
(* ===================================================================== *)

Module Startup.
Import Store.

(** The keyword arguments of [LlamaCpp(...)], lines 64-72. *)
Record LlamaCpp : Type := mkLlamaCpp {
  model_path : string;
  n_batch : Z;
  n_ctx : Z;
  f16_kv : bool;
  verbose : bool;
  n_threads : Z;
  temperature : Q;
}.

(** What the process finds around itself and does not change: the
    constants of [modules.config.constants], the YAML files it can
    open, [process_pdf] of [modules.data_loader] (taken as given: the
    chunks it returns for a directory, or its failure), the function
    the embedding model computes, and what a llama.cpp model of given
    parameters streams for a prompt: the fragments, then the end of the
    stream or a failure. *)
Record Env : Type := mkEnv {
  chatbot_dir : string;
  config_chatbot_dir : string;
  huggingface_token : string;
  yaml_files : gmap string Yaml;
  process_pdf : string -> Result (list Document);
  embed : HuggingFaceEmbeddings -> string -> Vec;
  llm_stream : LlamaCpp -> string -> list string * option Exn;
}.

(** What the script does to the outside, in order. *)
Inductive Event : Type :=
| EvLoadConfig (path : string)
| EvEmbeddingModel (em : HuggingFaceEmbeddings)
| EvProcessPdf (directory : string)
| EvPathExists (path : string) (found : bool)
| EvChromaLoad (directory : string)
| EvChromaBuild (directory : string) (chunks : list Document)
| EvLlamaCpp (params : LlamaCpp).

(** What the script can change: the persisted collections (by the path
    of their file), the texts handed to the embedding model so far, and
    the log of events. *)
Record World : Type := mkWorld {
  disk : gmap string (list Entry);
  embedded : list string;
  events : list Event;
}.

(** Effectful code of the script: it reads and changes the world and
    returns or raises. *)
Definition M (A : Type) : Type := World -> Result A * World.

Definition ret {A} (a : A) : M A := fun w => (Ok a, w).
Definition bind {A B} (m : M A) (k : A -> M B) : M B :=
  fun w =>
    match m w with
    | (Ok a, w') => k a w'
    | (Raise e, w') => (Raise e, w')
    end.
Definition lift {A} (r : Result A) : M A := fun w => (r, w).
Definition emit (ev : Event) : M unit :=
  fun w => (Ok tt, mkWorld (disk w) (embedded w) (events w ++ [ev])).

Notation "'let*' x ':=' m 'in' k" := (bind m (fun x => k))
  (at level 10, x pattern, m at level 100, k at level 200).
Notation "m ';;' k" := (bind m (fun _ => k))
  (at level 100, k at level 200, right associativity).

Section Script.
Variable env : Env.

(** [open(path)] and [yaml.safe_load] *)
Definition load_yaml (path : string) : M Yaml :=
  emit (EvLoadConfig path);;
  lift (match yaml_files env !! path with
        | Some y => Ok y
        | None => Raise (FileNotFoundError path)
        end).

(** [os.path.exists(path)], asked about a collection file. *)
Definition path_exists (path : string) : M bool :=
  fun w =>
    let found := bool_decide (is_Some (disk w !! path)) in
    (Ok found,
     mkWorld (disk w) (embedded w) (events w ++ [EvPathExists path found])).

(** [Chroma(persist_directory=..., embedding_function=...)]: the
    collection kept under the directory is served as stored; a
    directory without one gets an empty collection. Nothing is
    embedded. *)
Definition Chroma_load (directory : string) (em : HuggingFaceEmbeddings)
  : M Chroma :=
  emit (EvChromaLoad directory);;
  fun w =>
    match disk w !! sqlite_file directory with
    | Some es => (Ok (mkChroma directory em es), w)
    | None =>
        (Ok (mkChroma directory em []),
         mkWorld (<[sqlite_file directory := []]> (disk w)) (embedded w) (events w))
    end.

(** [Chroma.from_documents(documents=..., embedding=...,
    persist_directory=...)]: the documents' texts are embedded and the
    entries are added to the collection kept under the directory,
    which is written back. *)
Definition Chroma_from_documents (documents : list Document)
    (em : HuggingFaceEmbeddings) (directory : string) : M Chroma :=
  emit (EvChromaBuild directory documents);;
  fun w =>
    let old := default [] (disk w !! sqlite_file directory) in
    let es := old ++ embed_documents (embed env) em documents in
    (Ok (mkChroma directory em es),
     mkWorld (<[sqlite_file directory := es]> (disk w))
             (embedded w ++ map page_content documents)
             (events w)).

(** Lines 45-54: reuse the persisted collection or build it. *)
Definition open_vectorstore (embedding_model : HuggingFaceEmbeddings)
    (all_splits : list Document) : M Chroma :=
  let* found := path_exists "data/vectorstore/chroma.sqlite3" in
  if (found : bool)
  then Chroma_load "data/vectorstore" embedding_model
  else Chroma_from_documents all_splits embedding_model "data/vectorstore".

(** What the script leaves behind for the handlers. *)
Record App : Type := mkApp {
  app_embedding_model : HuggingFaceEmbeddings;
  app_vectorstore : Chroma;
  app_retriever : VectorStoreRetriever;
  app_model : LlamaCpp;
}.

(** The script, top to bottom. Logging and printing are left out. *)
Definition startup : M App :=
  let* config := load_yaml (config_chatbot_dir env) in
  let* embedding_section := lift (subscript config "embedding_model") in
  let* embedding_config := lift (subscript embedding_section "sentence-transformers") in
  let* retriever_config := lift (subscript config "retriever") in
  let* llama_config := lift (subscript config "llama_cpp") in
  let embedding_model :=
    mkEmbeddings embedding_config "cpu" (huggingface_token env) true in
  emit (EvEmbeddingModel embedding_model);;
  emit (EvProcessPdf (chatbot_dir env));;
  let* all_splits := lift (process_pdf env (chatbot_dir env)) in
  let* vectorstore := open_vectorstore embedding_model all_splits in
  let retriever := as_retriever vectorstore "similarity" 3 in
  let model :=
    mkLlamaCpp "C:/Users/pnhua/Downloads/tinyllama-1.1b-chat-v1.0.Q4_K_S.gguf"
               512 2048 true true 2 (7 # 10) in
  emit (EvLlamaCpp model);;
  ret (mkApp embedding_model vectorstore retriever model).

(** The parameters the script constructs the model with. *)
Definition hardcoded_model : LlamaCpp :=
  mkLlamaCpp "C:/Users/pnhua/Downloads/tinyllama-1.1b-chat-v1.0.Q4_K_S.gguf"
             512 2048 true true 2 (7 # 10).

(** A process starts with nothing embedded and nothing done yet. *)
Definition boot (files : gmap string (list Entry)) : Result App * World :=
  startup (mkWorld files [] []).

End Script.

(** The file whose presence the script tests. *)
Definition index_file : string := "data/vectorstore/chroma.sqlite3".

(** Unfolding of the script's monad. *)
Ltac run_script :=
  unfold bind, lift, emit, ret, path_exists, load_yaml in *; simpl in *.

(** The same surroundings with another outcome of ingestion. *)
Definition with_chunks (env : Env) (chunks : list Document) : Env :=
  mkEnv (chatbot_dir env) (config_chatbot_dir env) (huggingface_token env)
        (yaml_files env) (fun _ => Ok chunks) (embed env) (llm_stream env).

End Startup.

(* ===================================================================== *)
(** ** The chat handlers (lines 107-176)                                   *)
(* ===================================================================== *)

Module Chat.
Import Prompt.

(** A [(source, page)] pair as [on_retriever_end] builds it. *)
Definition Pair : Type := MetaVal * MetaVal.

(** [cl.Text(name=..., content=..., display=...)] *)
Record Text : Type := mkText {
  text_name : string;
  text_content : string;
  text_display : string;
}.

(** [cl.Message]: its text and the elements attached to it. *)
Record Message : Type := mkMessage {
  content : string;
  elements : list Text;
}.

(** What the user interface receives. *)
Inductive UiEvent : Type :=
| UiToken (token : string)
| UiMessage (m : Message).

(** The objects of one call of [on_message]. [msg] is one object with
    two references to it: the local variable [msg] of [on_message] and
    [self.msg] of the handler; [sources] is the handler's set; [ui] is
    what has been delivered so far. *)
Record Call : Type := mkCall {
  msg : Message;
  sources : gset Pair;
  ui : list UiEvent;
}.

(** [msg = cl.Message(content="")] and [PostMessageHandler(msg)]:
    [self.sources = set()]. *)
Definition new_call : Call := mkCall (mkMessage "" []) ∅ [].

(** [PostMessageHandler.on_retriever_end]: the loop adds a pair per
    document; a document without one of the two keys raises where the
    loop stands, the pairs added before it staying in the set. *)
Fixpoint on_retriever_end (documents : list Document) (c : Call)
  : Result unit * Call :=
  match documents with
  | [] => (Ok tt, c)
  | d :: rest =>
      match getitem (metadata d) "source" with
      | Raise e => (Raise e, c)
      | Ok source =>
          match getitem (metadata d) "page" with
          | Raise e => (Raise e, c)
          | Ok page =>
              let source_page_pair := (source, page) in
              on_retriever_end rest
                (mkCall (msg c) ({[ source_page_pair ]} ∪ sources c) (ui c))
          end
      end
  end.

(** The f-string of [on_llm_end]. *)
Definition citation (p : Pair) : string :=
  str (fst p) ++ "#page=" ++ str (snd p).

(** [PostMessageHandler.on_llm_end]; the set is iterated in the order
    [base.elements] enumerates it (the field [elements] of a message
    hides the name here). *)
Definition on_llm_end (c : Call) : Result unit * Call :=
  match size (sources c) with
  | O => (Ok tt, c)
  | S _ =>
      let sources_text := join nl (map citation (base.elements (sources c))) in
      (Ok tt,
       mkCall (mkMessage (content (msg c))
                         (elements (msg c) ++ [mkText "Sources" sources_text "inline"]))
              (sources c) (ui c))
  end.

(** [msg.stream_token(chunk)]: the token joins the message's text and
    goes to the interface. *)
Definition stream_token (chunk : string) (c : Call) : Call :=
  mkCall (mkMessage (content (msg c) ++ chunk) (elements (msg c)))
         (sources c) (ui c ++ [UiToken chunk]).

(** [msg.send()]: the message goes to the interface with its elements. *)
Definition send (c : Call) : Call :=
  mkCall (msg c) (sources c) (ui c ++ [UiMessage (msg c)]).

(** What happens, in order, while [runnable.astream(...)] is consumed:
    callbacks the run fires on the handlers of its configuration, chunks
    it yields, and an exception that ends it. *)
Inductive RunEvent : Type :=
| RetrieverEnd (documents : list Document)
| LLMEnd
| Chunk (text : string)
| Raised (e : Exn).

(** A runnable, as far as [astream] on an input goes. *)
Definition Runnable : Type := string -> list RunEvent.

(** The callback manager calls a handler's method and, the handler not
    asking for errors to be raised, keeps the run going when the method
    raises: only the changes made so far remain. *)
Definition fire (method : Call -> Result unit * Call) (c : Call) : Call :=
  snd (method c).

(** The [async for] loop of [on_message] over the events of the run: a
    yielded chunk runs the loop body before the run goes on; an
    exception leaves the loop and the function. *)
Fixpoint astream_loop (evs : list RunEvent) (c : Call) : option Exn * Call :=
  match evs with
  | [] => (None, c)
  | RetrieverEnd documents :: rest =>
      astream_loop rest (fire (on_retriever_end documents) c)
  | LLMEnd :: rest => astream_loop rest (fire on_llm_end c)
  | Chunk chunk :: rest => astream_loop rest (stream_token chunk c)
  | Raised e :: _ => (Some e, c)
  end.

(** [on_message]: [runnable] is what the session holds under
    ["runnable"]; the result is what the function returns or raises and
    what the interface received. Chainlit's own callback handler, which
    only displays the steps of the run, is left out. *)
Definition on_message (runnable : Runnable) (message : string)
  : Result unit * list UiEvent :=
  match astream_loop (runnable message) new_call with
  | (Some e, c) => (Raise e, ui c)
  | (None, c) => (Ok tt, ui (send c))
  end.

(** The chain of [on_chat_start], lines 127-132: retrieval, the mapping
    with the keys ["context"] and ["question"], the prompt, the model.
    The output parser passes the model's fragments on as they are. *)
Definition chain (retriever : string -> Result (list Document))
    (prompt : ChatPromptTemplate)
    (model : string -> list string * option Exn) : Runnable :=
  fun question =>
    match retriever question with
    | Raise e => [Raised e]
    | Ok docs =>
        RetrieverEnd docs ::
        match Prompt.format prompt (chain_inputs docs question) with
        | Raise e => [Raised e]
        | Ok text =>
            let '(fragments, failed) := model (to_string text) in
            map Chunk fragments ++
            match failed with
            | Some e => [Raised e]
            | None => [LLMEnd]
            end
        end
    end.

(** [on_chat_start]: the runnable it stores in the session. *)
Definition on_chat_start (retriever : string -> Result (list Document))
    (model : string -> list string * option Exn) : Result Runnable :=
  match from_template template with
  | Ok prompt => Ok (chain retriever prompt model)
  | Raise e => Raise e
  end.

(** The handlers of a started process: retriever and model are the
    globals of the start-up script. *)
Definition session_runnable (env : Startup.Env) (app : Startup.App)
  : Result Runnable :=
  on_chat_start
    (Store.get_relevant_documents (Startup.embed env) (Startup.app_retriever app))
    (Startup.llm_stream env (Startup.app_model app)).

(** *** What a run amounts to

    The functions below read the outcome of a run off its events; the
    theorems relate them to what [astream_loop] does. *)

(** The pairs [on_retriever_end] adds for a list of documents: those of
    the documents before the first one that lacks a key. *)
Fixpoint observed_pairs (documents : list Document) : list Pair :=
  match documents with
  | [] => []
  | d :: rest =>
      match metadata d !! "source", metadata d !! "page" with
      | Some source, Some page => (source, page) :: observed_pairs rest
      | _, _ => []
      end
  end.

(** Both keys in the metadata. *)
Definition has_source_and_page (d : Document) : Prop :=
  is_Some (metadata d !! "source") /\ is_Some (metadata d !! "page").

(** The chunks a run yields before it ends or fails. *)
Fixpoint yielded (evs : list RunEvent) : list string :=
  match evs with
  | [] => []
  | Chunk text :: rest => text :: yielded rest
  | Raised _ :: _ => []
  | _ :: rest => yielded rest
  end.

(** The exception that ends a run, if one does. *)
Fixpoint failure (evs : list RunEvent) : option Exn :=
  match evs with
  | [] => None
  | Raised e :: _ => Some e
  | _ :: rest => failure rest
  end.

(** The documents the retrievals of a run returned. *)
Fixpoint retrieved (evs : list RunEvent) : list Document :=
  match evs with
  | [] => []
  | RetrieverEnd documents :: rest => documents ++ retrieved rest
  | _ :: rest => retrieved rest
  end.

(** The pairs the retrievals of a run add to the handler's set. *)
Fixpoint gathered (evs : list RunEvent) : list Pair :=
  match evs with
  | [] => []
  | RetrieverEnd documents :: rest => observed_pairs documents ++ gathered rest
  | Raised _ :: _ => []
  | _ :: rest => gathered rest
  end.

(** The set the handler of a request holds once the run is over. *)
Definition accumulated (evs : list RunEvent) : gset Pair :=
  sources (snd (astream_loop evs new_call)).

(** The citation block for a list of pairs: nothing for no pair. *)
Definition citation_block (cited : list Pair) : list Text :=
  match cited with
  | [] => []
  | _ :: _ => [mkText "Sources" (join nl (map citation cited)) "inline"]
  end.

(** The elements a run attaches to the message when the handler's set is
    [held] at its beginning: one block per end of a model run over a
    set that is not empty. *)
Fixpoint blocks (evs : list RunEvent) (held : gset Pair) : list Text :=
  match evs with
  | [] => []
  | RetrieverEnd documents :: rest =>
      blocks rest (list_to_set (observed_pairs documents) ∪ held)
  | LLMEnd :: rest => citation_block (base.elements held) ++ blocks rest held
  | Chunk _ :: rest => blocks rest held
  | Raised _ :: _ => []
  end.

(** A request completed: retrievals and chunks, then the end of the
    model's run, then at most chunks still on their way. *)
Definition before_end (ev : RunEvent) : Prop :=
  match ev with
  | RetrieverEnd _ | Chunk _ => True
  | LLMEnd | Raised _ => False
  end.
Definition only_chunk (ev : RunEvent) : Prop :=
  match ev with
  | Chunk _ => True
  | _ => False
  end.
Definition completed (evs : list RunEvent) : Prop :=
  exists pre post,
    evs = pre ++ LLMEnd :: post /\ Forall before_end pre /\ Forall only_chunk post.

End Chat.


(* ===================================================================== *)
(** ** The credential check (lines 179-188)                                *)
(* ===================================================================== *)

Module Auth.

(** [cl.User(identifier=..., metadata=...)] *)
Record User : Type := mkUser {
  identifier : string;
  user_metadata : list (string * string);
}.

(** [auth_callback]; [None] refuses the login. *)
Definition auth_callback (username password : string) : option User :=
  if decide ((username, password) = ("admin", "admin"))
  then Some (mkUser "admin" [("role", "admin"); ("provider", "credentials")])
  else None.

(** The user the callback hands out. *)
Definition admin_user : User :=
  mkUser "admin" [("role", "admin"); ("provider", "credentials")].

End Auth.

(* ===================================================================== *)
(** ** A small concrete installation                                       *)
(* ===================================================================== *)

(** Three pages of two files, a configuration file whose sections ask for
    other settings than the script's literals, and toy stand-ins for the
    embedding model and the language model. *)
Module Demo.
Import Store Startup Chat.

Definition chunk (text source : string) (page : Z) : Document :=
  mkDocument text {[ "source" := MStr source; "page" := MInt page ]}.

Definition docA1 : Document := chunk "policy" "A" 1.
Definition docA1' : Document := chunk "policy of use" "A" 1.
Definition docB2 : Document := chunk "academia" "B" 2.
Definition docB7 : Document := chunk "a long passage on business" "B" 7.
(** A chunk whose loader recorded no page. *)
Definition docNoPage : Document :=
  mkDocument "stray" {[ "source" := MStr "C" ]}.

Definition config : Yaml :=
  YMap [("embedding_model",
         YMap [("sentence-transformers", YStr "all-MiniLM-L6-v2")]);
        ("retriever", YMap [("k", YInt 5)]);
        ("llama_cpp",
         YMap [("model_path", YStr "models/llama.gguf");
               ("n_ctx", YInt 4096);
               ("n_batch", YInt 64);
               ("n_threads", YInt 8);
               ("temperature", YNum (1 # 10))])].

(** A text is embedded as its length. *)
Definition embed_length (_ : HuggingFaceEmbeddings) (text : string) : Vec :=
  [inject_Z (Z.of_nat (String.length text))].

Definition two_fragments (_ : LlamaCpp) (_ : string) : list string * option Exn :=
  (["Gen"; "AI"], None).

Definition env : Env :=
  mkEnv "data/pdf" "config/chatbot.yml" "hf_token"
        {[ "config/chatbot.yml" := config ]}
        (fun _ => Ok [docA1; docA1'; docB2; docB7])
        embed_length
        two_fragments.

Definition embeddings : HuggingFaceEmbeddings :=
  mkEmbeddings (YStr "all-MiniLM-L6-v2") "cpu" "hf_token" true.

Definition stored : list Entry :=
  embed_documents embed_length embeddings [docB2; docA1].

(** A disk that already holds a collection. *)
Definition disk_with_index : gmap string (list Entry) :=
  {[ "data/vectorstore/chroma.sqlite3" := stored ]}.

(** The process after a start-up on that disk. *)
Definition loaded_store : Chroma := mkChroma "data/vectorstore" embeddings stored.
Definition loaded_app : App :=
  mkApp embeddings loaded_store (as_retriever loaded_store "similarity" 3)
        hardcoded_model.
Definition loaded_world : World :=
  mkWorld disk_with_index []
          [EvLoadConfig "config/chatbot.yml"; EvEmbeddingModel embeddings;
           EvProcessPdf "data/pdf";
           EvPathExists "data/vectorstore/chroma.sqlite3" true;
           EvChromaLoad "data/vectorstore"; EvLlamaCpp hardcoded_model].

(** The process after a start-up on an empty disk. *)
Definition chunks : list Document := [docA1; docA1'; docB2; docB7].
Definition built : list Entry := embed_documents embed_length embeddings chunks.
Definition built_store : Chroma := mkChroma "data/vectorstore" embeddings built.
Definition built_app : App :=
  mkApp embeddings built_store (as_retriever built_store "similarity" 3)
        hardcoded_model.
Definition built_world : World :=
  mkWorld {[ "data/vectorstore/chroma.sqlite3" := built ]}
          (map page_content chunks)
          [EvLoadConfig "config/chatbot.yml"; EvEmbeddingModel embeddings;
           EvProcessPdf "data/pdf";
           EvPathExists "data/vectorstore/chroma.sqlite3" false;
           EvChromaBuild "data/vectorstore" chunks; EvLlamaCpp hardcoded_model].

(** A run that completes: three retrieved chunks, two of one page. *)
Definition complete_run : Runnable :=
  fun _ => [RetrieverEnd [docA1; docA1'; docB2]; Chunk "Gen"; Chunk "AI"; LLMEnd].

(** A run that fails in the middle of generation. *)
Definition failing_run : Runnable :=
  fun _ => [RetrieverEnd [docA1]; Chunk "Gen"; Raised (GenerationError "model failed")].

End Demo.

(* ===================================================================== *)
(** ** The starters (lines 81-104)                                         *)
(* ===================================================================== *)

Module Starters.

(** [cl.Starter(label=..., message=...)] *)
Record Starter : Type := mkStarter {
  label : string;
  message : string;
}.

(** [set_starters] *)
Definition set_starters : list Starter :=
  [mkStarter "GenAI Usage in Academia?"
             "How is GenAI currently be used in academia?";
   mkStarter "GenAI Policy across Businesses?"
             "What are the different policies that businesses have regarding the use of Generative AI?";
   mkStarter "?" "?"].

End Starters.

(* ===================================================================== *)
(** ** Reading a text by lines                                             *)
(* ===================================================================== *)

(** Reading back what [join] wrote: the occurrences of a character and
    the pieces between them, as [str.split] cuts a text. *)
Module Lines.

(** The line feed as a character. *)
Definition lf : ascii := Ascii.ascii_of_nat 10.

(** [c in s] *)
Fixpoint occurs (c : ascii) (s : string) : bool :=
  match s with
  | EmptyString => false
  | String x rest => if Ascii.eqb x c then true else occurs c rest
  end.

(** [s.split(sep)] for a one-character separator. *)
Fixpoint split_on (sep : ascii) (s : string) : list string :=
  match s with
  | EmptyString => [EmptyString]
  | String x rest =>
      if Ascii.eqb x sep then EmptyString :: split_on sep rest
      else match split_on sep rest with
           | [] => [String x EmptyString]
           | piece :: pieces => String x piece :: pieces
           end
  end.

(** The characters [str()] of an integer is made of. *)
Definition decimal_char (c : ascii) : bool :=
  match Ascii.nat_of_ascii c with
  | 45%nat => true
  | n => (48 <=? n)%nat && (n <=? 57)%nat
  end.

(** Every character of a text satisfies [ok]. *)
Fixpoint all_chars (ok : ascii -> bool) (s : string) : bool :=
  match s with
  | EmptyString => true
  | String x rest => ok x && all_chars ok rest
  end.

(** A set of pairs of string sources without line feed and integer
    pages. *)
Definition plain_sources (held : gset Chat.Pair) : Prop :=
  forall p, p ∈ held ->
    exists (source : string) (page : Z),
      p = (MStr source, MInt page) /\ occurs lf source = false.

End Lines.

(* ===================================================================== *)
(** ** More concrete surroundings                                          *)
(* ===================================================================== *)

Module Cases.
Import Store Startup Chat.

(** A configuration file without a [llama_cpp] section. *)
Definition config_without_llama : Yaml :=
  YMap [("embedding_model",
         YMap [("sentence-transformers", YStr "all-MiniLM-L6-v2")]);
        ("retriever", YMap [("k", YInt 5)])].

Definition env_config (cfg : Yaml) : Env :=
  mkEnv "data/pdf" "config/chatbot.yml" "hf_token"
        {[ "config/chatbot.yml" := cfg ]}
        (fun _ => Ok Demo.chunks)
        Demo.embed_length
        Demo.two_fragments.

(** The installation of [Demo] without its configuration file. *)
Definition env_no_file : Env :=
  mkEnv "data/pdf" "config/chatbot.yml" "hf_token"
        ∅
        (fun _ => Ok Demo.chunks)
        Demo.embed_length
        Demo.two_fragments.

(** The installation of [Demo] with a document that cannot be read. *)
Definition env_bad_pdf : Env :=
  mkEnv "data/pdf" "config/chatbot.yml" "hf_token"
        {[ "config/chatbot.yml" := Demo.config ]}
        (fun _ => Raise (IngestionError "unreadable.pdf"))
        Demo.embed_length
        Demo.two_fragments.


(** The objects of a call after a retrieval of two pages. *)
Definition call_with_sources : Call :=
  mkCall (mkMessage "" []) {[ (MStr "A", MInt 1); (MStr "B", MInt 2) ]} [].

(** A prompt whose fields are the keys of the chain's mapping. *)
Definition prompt_with_question : Prompt.ChatPromptTemplate :=
  Prompt.mkTemplate [Prompt.Lit "Context: "; Prompt.Field "context";
                     Prompt.Lit " Question: "; Prompt.Field "question"].

End Cases.

(* ===================================================================== *)
(** * Properties                                                           *)
(* ===================================================================== *)

(** ** Sanity checks of the embedding on literals *)

Example str_int_42 : str (MInt 42) = "42".
Proof. vm_compute. reflexivity. Qed.

Example str_int_neg : str (MInt (-7)) = "-7".
Proof. vm_compute. reflexivity. Qed.

Example join_3 : join ", " ["a"; "b"; "c"] = "a, b, c".
Proof. reflexivity. Qed.

Example template_length : String.length Prompt.template = 980%nat.
Proof. vm_compute. reflexivity. Qed.

(* ===================================================================== *)
(** ** The credential check                                                *)
(* ===================================================================== *)

Module AuthFacts.
Import Auth.

(** C9. For every username and password, [auth_callback] returns the
    admin user exactly when the pair is [("admin", "admin")], and returns
    [None], refusing the login, exactly when it is any other pair. *)
Theorem auth_callback_admin_only (username password : string) :
  (auth_callback username password = Some admin_user
   <-> (username, password) = ("admin", "admin"))
  /\ (auth_callback username password = None
      <-> (username, password) <> ("admin", "admin")).
Proof.
  unfold auth_callback, admin_user.
  destruct (decide ((username, password) = ("admin", "admin"))) as [Heq|Hne].
  - split; split; intros H; try reflexivity; try assumption.
    + discriminate H.
    + contradiction.
  - split; split; intros H; try reflexivity; try assumption.
    + discriminate H.
    + contradiction.
Qed.

Example auth_admin : auth_callback "admin" "admin" = Some admin_user.
Proof. reflexivity. Qed.

Example auth_wrong_password : auth_callback "admin" "Admin" = None.
Proof. reflexivity. Qed.

Example auth_empty : auth_callback "" "" = None.
Proof. reflexivity. Qed.

End AuthFacts.

(* ===================================================================== *)
(** ** The vector store                                                    *)
(* ===================================================================== *)

Module StoreFacts.
Import Store.

Lemma length_insert_ranked q e l :
  length (insert_ranked q e l) = S (length l).
Proof.
  induction l as [|r rest IH]; simpl; [reflexivity|].
  destruct (Qle_bool _ _); simpl; [|rewrite IH]; reflexivity.
Qed.

Lemma length_rank q es : length (rank q es) = length es.
Proof.
  induction es as [|e es IH]; simpl; [reflexivity|].
  rewrite length_insert_ranked. f_equal. exact IH.
Qed.

Lemma elem_of_insert_ranked q e l x :
  x ∈ insert_ranked q e l <-> x = e \/ x ∈ l.
Proof.
  induction l as [|r rest IH]; simpl.
  - rewrite elem_of_cons. reflexivity.
  - destruct (Qle_bool _ _).
    + rewrite !elem_of_cons. tauto.
    + rewrite !elem_of_cons, IH. tauto.
Qed.

Lemma elem_of_rank q es x : x ∈ rank q es <-> x ∈ es.
Proof.
  induction es as [|e es IH]; simpl; [reflexivity|].
  rewrite elem_of_insert_ranked, elem_of_cons, IH. reflexivity.
Qed.

Lemma insert_ranked_sorted q e l :
  Sorted (nearer q) l -> Sorted (nearer q) (insert_ranked q e l).
Proof.
  induction l as [|r rest IH]; simpl; intros Hs.
  - repeat constructor.
  - destruct (Qle_bool _ _) eqn:Hle.
    + constructor; [exact Hs|]. constructor. apply Qle_bool_iff. exact Hle.
    + assert (Hre : nearer q r e).
      { unfold nearer. apply Qlt_le_weak, Qnot_le_lt. intros Habs.
        apply Qle_bool_iff in Habs. congruence. }
      inversion Hs as [|? ? Hrest Hhd]; subst.
      constructor; [exact (IH Hrest)|].
      destruct rest as [|r' rest']; simpl.
      * constructor. exact Hre.
      * destruct (Qle_bool (l2 q (entry_vec e)) (l2 q (entry_vec r')));
          constructor; [exact Hre|].
        inversion Hhd; assumption.
Qed.

(** The ranking puts the nearest entries first. *)
Lemma rank_sorted q es : Sorted (nearer q) (rank q es).
Proof.
  induction es as [|e es IH]; simpl; [constructor|].
  apply insert_ranked_sorted, IH.
Qed.

(** A search never returns more than [k] documents, nor more than the
    collection holds, and returns stored documents only. *)
Lemma similarity_search_bound embed vs query k :
  (length (similarity_search embed vs query k) <= k)%nat
  /\ (length (similarity_search embed vs query k) <= length (collection vs))%nat
  /\ forall d, d ∈ similarity_search embed vs query k ->
               d ∈ map entry_doc (collection vs).
Proof.
  unfold similarity_search. rewrite length_map, length_take, length_rank.
  split; [lia|]. split; [lia|].
  intros d Hd. apply list_elem_of_fmap in Hd as (e & -> & He).
  apply list_elem_of_fmap. exists e. split; [reflexivity|].
  apply (elem_of_rank (embed (embedding_function vs) query)).
  exact (subseteq_take k _ e He).
Qed.

End StoreFacts.

(* ===================================================================== *)
(** ** The start-up script                                                 *)
(* ===================================================================== *)

Module StartupFacts.
Import Store Startup.

(** The directory handed to Chroma keeps its collection in that file. *)
Lemma index_file_of_directory : sqlite_file "data/vectorstore" = index_file.
Proof. reflexivity. Qed.

(** The collection is on disk: it is served as stored. *)
Lemma open_vectorstore_found env em splits w es :
  disk w !! index_file = Some es ->
  open_vectorstore env em splits w
  = (Ok (mkChroma "data/vectorstore" em es),
     mkWorld (disk w) (embedded w)
             (events w ++ [EvPathExists index_file true;
                           EvChromaLoad "data/vectorstore"])).
Proof.
  unfold index_file. intros Hes.
  unfold open_vectorstore, Chroma_load. run_script.
  change (sqlite_file "data/vectorstore") with "data/vectorstore/chroma.sqlite3".
  rewrite Hes. simpl. rewrite Hes, <- app_assoc. reflexivity.
Qed.

(** The collection is not on disk: it is built from the chunks. *)
Lemma open_vectorstore_missing env em splits w :
  disk w !! index_file = None ->
  let built := embed_documents (embed env) em splits in
  open_vectorstore env em splits w
  = (Ok (mkChroma "data/vectorstore" em built),
     mkWorld (<[index_file := built]> (disk w))
             (embedded w ++ map page_content splits)
             (events w ++ [EvPathExists index_file false;
                           EvChromaBuild "data/vectorstore" splits])).
Proof.
  intros Hes built. subst built. unfold index_file in *.
  unfold open_vectorstore, Chroma_from_documents. run_script.
  change (sqlite_file "data/vectorstore") with "data/vectorstore/chroma.sqlite3".
  rewrite Hes. simpl. rewrite Hes, <- app_assoc. reflexivity.
Qed.

(** What a start-up that succeeds has gone through. *)
Lemma startup_inv env w app w' :
  startup env w = (Ok app, w') ->
  exists config section embedding_config retriever_config llama_config splits vs w1,
    yaml_files env !! config_chatbot_dir env = Some config
    /\ subscript config "embedding_model" = Ok section
    /\ subscript section "sentence-transformers" = Ok embedding_config
    /\ subscript config "retriever" = Ok retriever_config
    /\ subscript config "llama_cpp" = Ok llama_config
    /\ process_pdf env (chatbot_dir env) = Ok splits
    /\ let em := mkEmbeddings embedding_config "cpu" (huggingface_token env) true in
       open_vectorstore env em splits
         (mkWorld (disk w) (embedded w)
                  (events w ++ [EvLoadConfig (config_chatbot_dir env);
                                EvEmbeddingModel em;
                                EvProcessPdf (chatbot_dir env)]))
       = (Ok vs, w1)
       /\ app = mkApp em vs (as_retriever vs "similarity" 3) hardcoded_model
       /\ w' = mkWorld (disk w1) (embedded w1) (events w1 ++ [EvLlamaCpp hardcoded_model]).
Proof.
  unfold startup. run_script. intros H.
  destruct (yaml_files env !! config_chatbot_dir env) as [config|] eqn:Hconfig;
    [|discriminate].
  destruct (subscript config "embedding_model") as [section|] eqn:Hsection;
    [|discriminate].
  destruct (subscript section "sentence-transformers") as [embedding_config|] eqn:Hemb;
    [|discriminate].
  destruct (subscript config "retriever") as [retriever_config|] eqn:Hretr;
    [|discriminate].
  destruct (subscript config "llama_cpp") as [llama_config|] eqn:Hllama;
    [|discriminate].
  destruct (process_pdf env (chatbot_dir env)) as [splits|] eqn:Hsplits;
    [|discriminate].
  rewrite <- !app_assoc in H. simpl in H.
  destruct (open_vectorstore _ _ _ _) as [[vs|e] w1] eqn:Hopen; [|discriminate].
  injection H as <- <-.
  exists config, section, embedding_config, retriever_config, llama_config, splits, vs, w1.
  repeat (split; [first [reflexivity | assumption]|]). reflexivity.
Qed.

(** The other direction: with a readable configuration and an ingestion
    that returns, the script reaches the vector store and the model. *)
Lemma startup_run env w config section embedding_config retriever_config
    llama_config splits :
  yaml_files env !! config_chatbot_dir env = Some config ->
  subscript config "embedding_model" = Ok section ->
  subscript section "sentence-transformers" = Ok embedding_config ->
  subscript config "retriever" = Ok retriever_config ->
  subscript config "llama_cpp" = Ok llama_config ->
  process_pdf env (chatbot_dir env) = Ok splits ->
  let em := mkEmbeddings embedding_config "cpu" (huggingface_token env) true in
  startup env w
  = match open_vectorstore env em splits
            (mkWorld (disk w) (embedded w)
                     (events w ++ [EvLoadConfig (config_chatbot_dir env);
                                   EvEmbeddingModel em;
                                   EvProcessPdf (chatbot_dir env)])) with
    | (Ok vs, w1) =>
        (Ok (mkApp em vs (as_retriever vs "similarity" 3) hardcoded_model),
         mkWorld (disk w1) (embedded w1) (events w1 ++ [EvLlamaCpp hardcoded_model]))
    | (Raise e, w1) => (Raise e, w1)
    end.
Proof.
  intros Hconfig Hsection Hemb Hretr Hllama Hsplits em. subst em.
  unfold startup. run_script.
  rewrite Hconfig, Hsection, Hemb, Hretr, Hllama, Hsplits.
  rewrite <- !app_assoc. simpl.
  destruct (open_vectorstore _ _ _ _) as [[vs|e] w1]; reflexivity.
Qed.

(** The two ways a start-up succeeds, by what the disk held. *)
Lemma startup_outcome env w app w' :
  startup env w = (Ok app, w') ->
  exists embedding_config splits,
    process_pdf env (chatbot_dir env) = Ok splits
    /\ let em := mkEmbeddings embedding_config "cpu" (huggingface_token env) true in
       let before := [EvLoadConfig (config_chatbot_dir env);
                      EvEmbeddingModel em;
                      EvProcessPdf (chatbot_dir env)] in
       match disk w !! index_file with
       | Some es =>
           app = mkApp em (mkChroma "data/vectorstore" em es)
                       (as_retriever (mkChroma "data/vectorstore" em es) "similarity" 3)
                       hardcoded_model
           /\ w' = mkWorld (disk w) (embedded w)
                     (events w ++ before
                      ++ [EvPathExists index_file true;
                          EvChromaLoad "data/vectorstore";
                          EvLlamaCpp hardcoded_model])
       | None =>
           let built := embed_documents (embed env) em splits in
           app = mkApp em (mkChroma "data/vectorstore" em built)
                       (as_retriever (mkChroma "data/vectorstore" em built) "similarity" 3)
                       hardcoded_model
           /\ w' = mkWorld (<[index_file := built]> (disk w))
                     (embedded w ++ map page_content splits)
                     (events w ++ before
                      ++ [EvPathExists index_file false;
                          EvChromaBuild "data/vectorstore" splits;
                          EvLlamaCpp hardcoded_model])
       end.
Proof.
  intros H. apply startup_inv in H
    as (config & section & ecfg & rcfg & lcfg & splits & vs & w1
        & _ & _ & _ & _ & _ & Hsplits & Hopen & -> & ->).
  exists ecfg, splits. split; [exact Hsplits|]. cbv zeta.
  destruct (disk w !! index_file) as [es|] eqn:Hdisk.
  - rewrite (open_vectorstore_found _ _ _ _ es) in Hopen by exact Hdisk.
    injection Hopen as <- <-. simpl. rewrite <- !app_assoc. simpl.
    split; reflexivity.
  - rewrite open_vectorstore_missing in Hopen by exact Hdisk.
    injection Hopen as <- <-. simpl. rewrite <- !app_assoc. simpl.
    split; reflexivity.
Qed.

(** C3. At start-up, when the index file is present at the persistence
    location, the vector store serves the persisted collection: nothing is
    embedded and the disk is left as it was. Otherwise the collection is
    built by embedding the ingested chunks and is written to that file.
    The test of the file's presence is an event of the script, placed
    before the call that opens or builds the store, and its answer picks
    the call. *)
Theorem vectorstore_reused_or_built env w app w' splits :
  startup env w = (Ok app, w') ->
  process_pdf env (chatbot_dir env) = Ok splits ->
  sqlite_file (persist_directory (app_vectorstore app)) = index_file
  /\ (forall es, disk w !! index_file = Some es ->
        collection (app_vectorstore app) = es
        /\ embedded w' = embedded w
        /\ disk w' = disk w
        /\ exists before,
             events w' = before ++ [EvPathExists index_file true;
                                    EvChromaLoad "data/vectorstore";
                                    EvLlamaCpp hardcoded_model])
  /\ (disk w !! index_file = None ->
        let built :=
          embed_documents (embed env) (app_embedding_model app) splits in
        collection (app_vectorstore app) = built
        /\ embedded w' = embedded w ++ map page_content splits
        /\ disk w' = <[index_file := built]> (disk w)
        /\ exists before,
             events w' = before ++ [EvPathExists index_file false;
                                    EvChromaBuild "data/vectorstore" splits;
                                    EvLlamaCpp hardcoded_model]).
Proof.
  intros H Hsplits.
  apply startup_outcome in H as (ecfg & splits' & Hsplits' & H).
  rewrite Hsplits in Hsplits'. injection Hsplits' as <-. cbv zeta in H.
  destruct (disk w !! index_file) as [es|] eqn:Hdisk; destruct H as [-> ->]; simpl.
  - split; [reflexivity|]. split; [|intros ?; discriminate].
    intros es' [= <-]. repeat split.
    eexists (events w ++ [_; _; _]). rewrite <- app_assoc. reflexivity.
  - split; [reflexivity|]. split; [intros es [=]|].
    intros _. repeat split.
    eexists (events w ++ [_; _; _]). rewrite <- app_assoc. reflexivity.
Qed.

(** A start-up on a disk that holds a collection reuses it. *)
Lemma vectorstore_reused_or_built_witness :
  collection (app_vectorstore Demo.loaded_app) = Demo.stored
  /\ embedded Demo.loaded_world = []
  /\ disk Demo.loaded_world = Demo.disk_with_index.
Proof.
  destruct (vectorstore_reused_or_built Demo.env
              (mkWorld Demo.disk_with_index [] [])
              Demo.loaded_app Demo.loaded_world Demo.chunks)
    as (_ & Hload & _).
  - vm_compute. reflexivity.
  - reflexivity.
  - destruct (Hload Demo.stored) as (Hc & He & Hd & _).
    + vm_compute. reflexivity.
    + split; [exact Hc|]. split; [exact He | exact Hd].
Defined.

(** C5. The retriever of a started process answers every query with the
    result of the similarity search of the vector store for the embedded
    query with [k = 3]; the result never has more than 3 chunks. *)
Theorem retrieval_at_most_three env w app w' query :
  startup env w = (Ok app, w') ->
  search_type (app_retriever app) = "similarity"
  /\ search_k (app_retriever app) = 3%nat
  /\ exists docs,
       get_relevant_documents (embed env) (app_retriever app) query = Ok docs
       /\ docs = similarity_search (embed env) (app_vectorstore app) query 3
       /\ (length docs <= 3)%nat.
Proof.
  intros H. apply startup_inv in H
    as (config & section & ecfg & rcfg & lcfg & splits & vs & w1
        & _ & _ & _ & _ & _ & _ & _ & -> & _).
  simpl. split; [reflexivity|]. split; [reflexivity|].
  eexists. split; [reflexivity|]. split; [reflexivity|].
  apply StoreFacts.similarity_search_bound.
Qed.

(** Four chunks are indexed; a query gets the three nearest. *)
Lemma retrieval_at_most_three_witness :
  exists docs,
    get_relevant_documents Demo.embed_length (app_retriever Demo.built_app)
                           "business" = Ok docs
    /\ (length docs <= 3)%nat.
Proof.
  destruct (retrieval_at_most_three Demo.env (mkWorld ∅ [] [])
              Demo.built_app Demo.built_world "business")
    as (_ & _ & docs & Hdocs & _ & Hlen).
  - vm_compute. reflexivity.
  - exists docs. split; [exact Hdocs | exact Hlen].
Defined.

(** The model of a started process has the parameters written in the
    script, and the script constructs it once. *)
Lemma model_is_hardcoded env w app w' :
  startup env w = (Ok app, w') ->
  app_model app = hardcoded_model
  /\ exists before, events w' = events w ++ before ++ [EvLlamaCpp hardcoded_model]
       /\ Forall (fun ev => forall params, ev <> EvLlamaCpp params) before.
Proof.
  intros H. apply startup_outcome in H as (ecfg & splits & _ & H). cbv zeta in H.
  destruct (disk w !! index_file); destruct H as [-> ->]; simpl.
  - split; [reflexivity|]. eexists [_; _; _; _; _]. split; [reflexivity|].
    repeat constructor; intros params; discriminate.
  - split; [reflexivity|]. eexists [_; _; _; _; _]. split; [reflexivity|].
    repeat constructor; intros params; discriminate.
Qed.

(** C8, evaluated where it fails. The configuration file asks, in its
    [llama_cpp] section, for a model path, a context window of 4096, a
    batch size of 64, 8 threads and a temperature of 0.1; the script reads
    the section and constructs the model from its own literals: the path
    on the author's disk, 2048, 512, 2 and 0.7. *)
Theorem llama_config_section_is_ignored :
  subscript Demo.config "llama_cpp"
  = Ok (YMap [("model_path", YStr "models/llama.gguf");
              ("n_ctx", YInt 4096); ("n_batch", YInt 64);
              ("n_threads", YInt 8); ("temperature", YNum (1 # 10))])
  /\ boot Demo.env ∅ = (Ok Demo.built_app, Demo.built_world)
  /\ model_path (app_model Demo.built_app)
     = "C:/Users/pnhua/Downloads/tinyllama-1.1b-chat-v1.0.Q4_K_S.gguf"
  /\ n_ctx (app_model Demo.built_app) = 2048
  /\ n_batch (app_model Demo.built_app) = 512
  /\ n_threads (app_model Demo.built_app) = 2
  /\ temperature (app_model Demo.built_app) = 7 # 10.
Proof.
  split; [reflexivity|].
  split; [vm_compute; reflexivity|].
  repeat split.
Qed.

(** Whatever the surroundings, the configuration file included, the
    model is the same. *)
Lemma model_independent_of_config env1 env2 w1 w2 app1 app2 w1' w2' :
  startup env1 w1 = (Ok app1, w1') ->
  startup env2 w2 = (Ok app2, w2') ->
  app_model app1 = app_model app2.
Proof.
  intros H1 H2.
  apply model_is_hardcoded in H1 as [-> _].
  apply model_is_hardcoded in H2 as [-> _]. reflexivity.
Qed.

(** C10. In a start-up that succeeds, [process_pdf] is called on the
    document directory before the presence of the index file is tested,
    whether the file is there or not. When it is there, the store is
    loaded and the outcome of the start-up is the same whatever chunks
    ingestion returned; when it is not, the chunks go into the build. *)
Theorem ingestion_precedes_index_check env w app w' :
  startup env w = (Ok app, w') ->
  (exists before found after,
     events w' = events w ++ before ++ [EvProcessPdf (chatbot_dir env);
                                        EvPathExists index_file found] ++ after
     /\ found = bool_decide (is_Some (disk w !! index_file)))
  /\ (is_Some (disk w !! index_file) ->
      EvChromaLoad "data/vectorstore" ∈ events w'
      /\ forall chunks, startup (with_chunks env chunks) w = (Ok app, w'))
  /\ (disk w !! index_file = None ->
      forall splits, process_pdf env (chatbot_dir env) = Ok splits ->
        EvChromaBuild "data/vectorstore" splits ∈ events w').
Proof.
  intros H.
  apply startup_inv in H
    as (config & section & ecfg & rcfg & lcfg & splits & vs & w1
        & Hconfig & Hsection & Hemb & Hretr & Hllama & Hsplits & Hopen & -> & ->).
  cbv zeta in Hopen.
  destruct (disk w !! index_file) as [es|] eqn:Hdisk.
  - rewrite (open_vectorstore_found _ _ _ _ es) in Hopen by exact Hdisk.
    injection Hopen as <- <-. simpl. rewrite <- !app_assoc. simpl.
    split; [|split].
    + eexists [_; _], true, [_; _]. split; reflexivity.
    + intros _. split.
      * rewrite !elem_of_app, !elem_of_cons. right. tauto.
      * intros chunks.
        rewrite (startup_run (with_chunks env chunks) w config section ecfg rcfg
                   lcfg chunks) by (try reflexivity; assumption).
        simpl. rewrite (open_vectorstore_found _ _ _ _ es) by exact Hdisk.
        simpl. rewrite <- !app_assoc. reflexivity.
    + intros [=].
  - rewrite open_vectorstore_missing in Hopen by exact Hdisk.
    injection Hopen as <- <-. simpl. rewrite <- !app_assoc. simpl.
    split; [|split].
    + eexists [_; _], false, [_; _]. split; reflexivity.
    + intros [? [=]].
    + intros _ splits' Hsplits'. rewrite Hsplits in Hsplits'.
      injection Hsplits' as <-.
      rewrite !elem_of_app, !elem_of_cons. right. tauto.
Qed.

(** On the disk that holds a collection, ingestion runs, the collection
    is loaded, and other chunks change nothing. *)
Lemma ingestion_precedes_index_check_witness :
  EvChromaLoad "data/vectorstore" ∈ events Demo.loaded_world
  /\ startup (with_chunks Demo.env [Demo.docNoPage])
             (mkWorld Demo.disk_with_index [] [])
     = (Ok Demo.loaded_app, Demo.loaded_world).
Proof.
  destruct (ingestion_precedes_index_check Demo.env
              (mkWorld Demo.disk_with_index [] [])
              Demo.loaded_app Demo.loaded_world)
    as (_ & Hload & _).
  - vm_compute. reflexivity.
  - destruct Hload as [Hev Hsame].
    + vm_compute. eauto.
    + split; [exact Hev | exact (Hsame [Demo.docNoPage])].
Defined.

End StartupFacts.

(* ===================================================================== *)
(** ** The prompt                                                          *)
(* ===================================================================== *)

Module PromptFacts.
Import Prompt.

(** The template scans into three literals around two fields. *)
Lemma template_shape :
  exists before between after,
    parse template
    = Ok [Lit before; Field "context"; Lit between; Field "input"; Lit after].
Proof. eexists _, _, _. vm_compute. reflexivity. Qed.

(** Blank-line joining keeps the rank order of the chunks. *)
Lemma format_docs_cons d d' docs :
  format_docs (d :: d' :: docs)
  = (page_content d ++ (nl ++ nl) ++ format_docs (d' :: docs))%string.
Proof. reflexivity. Qed.

(** The mapping of the chain has no entry for [input], and the prompt
    asks for one. *)
Lemma format_raises_key_error (docs : list Document) (question : string) :
  exists prompt,
    from_template template = Ok prompt
    /\ input_variables prompt = ["context"; "input"]
    /\ chain_inputs docs question !! "input" = None
    /\ format prompt (chain_inputs docs question) = Raise (KeyError "input").
Proof.
  eexists. split; [vm_compute; reflexivity|].
  split; [vm_compute; reflexivity|].
  assert (Hmissing : chain_inputs docs question !! "input" = None).
  { unfold chain_inputs. rewrite lookup_insert_ne by discriminate.
    apply lookup_singleton_ne. discriminate. }
  split; [exact Hmissing|].
  unfold format, input_variables. cbn [pieces field_names first_missing].
  rewrite Hmissing.
  assert (Hcontext : chain_inputs docs question !! "context"
                     = Some (format_docs docs)).
  { unfold chain_inputs. apply lookup_insert_eq. }
  rewrite Hcontext. reflexivity.
Qed.

(** Had the mapping the key [input], the prompt would render with the
    joined chunks in the place of [context] and the question after them. *)
Lemma format_with_input_key (context question : string) :
  exists prompt before between after,
    from_template template = Ok prompt
    /\ format prompt {[ "context" := context; "input" := question ]}
       = Ok (concat_strings [before; context; between; question; after]).
Proof.
  destruct template_shape as (before & between & after & Hshape).
  exists (mkTemplate [Lit before; Field "context"; Lit between; Field "input";
                      Lit after]), before, between, after.
  unfold from_template. rewrite Hshape. split; [reflexivity|].
  assert (Hc : ({[ "context" := context; "input" := question ]} : gmap string string)
               !! "context" = Some context) by apply lookup_insert_eq.
  assert (Hi : ({[ "context" := context; "input" := question ]} : gmap string string)
               !! "input" = Some question).
  { rewrite lookup_insert_ne by discriminate. apply lookup_singleton_eq. }
  unfold format, input_variables.
  cbn [pieces field_names first_missing map subst].
  rewrite Hc, Hi. reflexivity.
Qed.

(** C2, evaluated where it fails. For every retrieval result and every
    question, the prompt of [on_chat_start] has the input variables
    [context] and [input], the chain hands it a mapping with the keys
    [context] and [question], and rendering raises [KeyError] for
    [input]: no prompt is rendered and none reaches the model. *)
Theorem prompt_rendering_fails (docs : list Document) (question : string) :
  exists prompt,
    from_template template = Ok prompt
    /\ input_variables prompt = ["context"; "input"]
    /\ dom (chain_inputs docs question) = {[ "context"; "question" ]}
    /\ format prompt (chain_inputs docs question) = Raise (KeyError "input").
Proof.
  destruct (format_raises_key_error docs question)
    as (prompt & Hprompt & Hvars & _ & Hformat).
  exists prompt. split; [exact Hprompt|]. split; [exact Hvars|].
  split; [|exact Hformat].
  unfold chain_inputs. rewrite dom_insert_L, dom_singleton_L. reflexivity.
Qed.

End PromptFacts.

(* ===================================================================== *)
(** ** The message handler                                                 *)
(* ===================================================================== *)

Module ChatFacts.
Import Prompt Chat.

Lemma string_app_assoc (a b c : string) : ((a ++ b) ++ c = a ++ b ++ c)%string.
Proof.
  induction a as [|x a IH]; [reflexivity|].
  change (String x ((a ++ b) ++ c) = String x (a ++ b ++ c))%string.
  rewrite IH. reflexivity.
Qed.

Lemma string_app_nil_r (a : string) : (a ++ "" = a)%string.
Proof.
  induction a as [|x a IH]; [reflexivity|].
  change (String x (a ++ "") = String x a)%string.
  rewrite IH. reflexivity.
Qed.

(** *** The two callbacks *)

Lemma on_retriever_end_spec documents c :
  snd (on_retriever_end documents c)
  = mkCall (msg c) (list_to_set (observed_pairs documents) ∪ sources c) (ui c).
Proof.
  revert c. induction documents as [|d rest IH]; intros c; simpl.
  - destruct c as [m held u]. simpl. f_equal. set_solver.
  - unfold getitem.
    destruct (metadata d !! "source") as [source|]; simpl.
    + destruct (metadata d !! "page") as [page|]; simpl.
      * rewrite IH. simpl. f_equal. set_solver.
      * destruct c as [m held u]. simpl. f_equal. set_solver.
    + destruct c as [m held u]. simpl. f_equal. set_solver.
Qed.

Lemma on_llm_end_spec c :
  snd (on_llm_end c)
  = mkCall (mkMessage (content (msg c))
                      (elements (msg c) ++ citation_block (base.elements (sources c))))
           (sources c) (ui c).
Proof.
  unfold on_llm_end, size, set_size. simpl.
  destruct (base.elements (sources c)) as [|p cited]; simpl.
  - destruct c as [[text els] held u]. simpl. rewrite app_nil_r. reflexivity.
  - reflexivity.
Qed.

(** A pair the handler adds is the pair of a document it was given. *)
Lemma observed_pairs_from documents p :
  p ∈ observed_pairs documents ->
  exists d, d ∈ documents
            /\ metadata d !! "source" = Some (fst p)
            /\ metadata d !! "page" = Some (snd p).
Proof.
  induction documents as [|d rest IH]; simpl; [intros H; inversion H|].
  destruct (metadata d !! "source") as [source|] eqn:Hs;
    [|intros H; inversion H].
  destruct (metadata d !! "page") as [page|] eqn:Hp;
    [|intros H; inversion H].
  rewrite elem_of_cons. intros [->|H].
  - exists d. rewrite elem_of_cons. auto.
  - destruct (IH H) as (d' & Hd' & Hmeta). exists d'.
    rewrite elem_of_cons. auto.
Qed.

(** When every document carries both keys, every document is counted. *)
Lemma observed_pairs_all documents :
  Forall has_source_and_page documents ->
  forall d source page,
    d ∈ documents ->
    metadata d !! "source" = Some source ->
    metadata d !! "page" = Some page ->
    (source, page) ∈ observed_pairs documents.
Proof.
  induction 1 as [|d0 rest [[s Hs] [p Hp]] _ IH]; intros d source page Hd Hsrc Hpg.
  - inversion Hd.
  - simpl. rewrite Hs, Hp. rewrite elem_of_cons.
    apply elem_of_cons in Hd as [->|Hd].
    + left. congruence.
    + right. eapply IH; eassumption.
Qed.

(** *** The loop *)

Lemma astream_loop_spec evs c :
  astream_loop evs c
  = (failure evs,
     mkCall (mkMessage (content (msg c) ++ concat_strings (yielded evs))
                       (elements (msg c) ++ blocks evs (sources c)))
            (list_to_set (gathered evs) ∪ sources c)
            (ui c ++ map UiToken (yielded evs))).
Proof.
  revert c. induction evs as [|ev rest IH]; intros c.
  - simpl. destruct c as [[text els] held u]. simpl.
    rewrite string_app_nil_r, !app_nil_r. do 2 f_equal. set_solver.
  - destruct ev as [documents| |text|e]; simpl.
    + rewrite IH. unfold fire. rewrite on_retriever_end_spec. simpl.
      do 2 f_equal. rewrite list_to_set_app_L. set_solver.
    + rewrite IH. unfold fire. rewrite on_llm_end_spec. simpl.
      rewrite <- app_assoc. reflexivity.
    + rewrite IH. unfold stream_token. simpl.
      rewrite string_app_assoc, <- app_assoc. reflexivity.
    + destruct c as [[text els] held u]. simpl.
      rewrite string_app_nil_r, !app_nil_r. do 2 f_equal. set_solver.
Qed.

(** What [on_message] returns and delivers, read off the run. *)
Lemma on_message_spec runnable message :
  on_message runnable message
  = match failure (runnable message) with
    | Some e => (Raise e, map UiToken (yielded (runnable message)))
    | None =>
        (Ok tt,
         map UiToken (yielded (runnable message))
         ++ [UiMessage (mkMessage (concat_strings (yielded (runnable message)))
                                  (blocks (runnable message) ∅))])
    end.
Proof.
  unfold on_message. rewrite astream_loop_spec.
  destruct (failure (runnable message)); reflexivity.
Qed.

Lemma accumulated_spec evs : accumulated evs = list_to_set (gathered evs).
Proof.
  unfold accumulated. rewrite astream_loop_spec. simpl. set_solver.
Qed.

(** *** What the retrievals of a run contribute *)

Lemma gathered_from evs p :
  p ∈ gathered evs ->
  exists d, d ∈ retrieved evs
            /\ metadata d !! "source" = Some (fst p)
            /\ metadata d !! "page" = Some (snd p).
Proof.
  induction evs as [|ev rest IH]; simpl; [intros H; inversion H|].
  destruct ev as [documents| |text|e]; simpl.
  - rewrite elem_of_app. intros [H|H].
    + destruct (observed_pairs_from _ _ H) as (d & Hd & Hmeta).
      exists d. rewrite elem_of_app. auto.
    + destruct (IH H) as (d & Hd & Hmeta).
      exists d. rewrite elem_of_app. auto.
  - exact IH.
  - exact IH.
  - intros H. inversion H.
Qed.

Lemma gathered_all evs d source page :
  failure evs = None ->
  Forall has_source_and_page (retrieved evs) ->
  d ∈ retrieved evs ->
  metadata d !! "source" = Some source ->
  metadata d !! "page" = Some page ->
  (source, page) ∈ gathered evs.
Proof.
  induction evs as [|ev rest IH]; simpl; intros Hf Hall Hd Hs Hp.
  - inversion Hd.
  - destruct ev as [documents| |text|e]; simpl in *;
      [|auto|auto|discriminate Hf].
    apply Forall_app in Hall as [Hdocs Hrest].
    rewrite elem_of_app. apply elem_of_app in Hd as [Hd|Hd].
    + left. eapply observed_pairs_all; eassumption.
    + right. auto.
Qed.

(** *** Runs that complete *)

Lemma before_end_phase pre rest :
  Forall before_end pre ->
  failure (pre ++ rest) = failure rest
  /\ yielded (pre ++ rest) = yielded pre ++ yielded rest
  /\ gathered (pre ++ rest) = gathered pre ++ gathered rest
  /\ forall held,
       blocks (pre ++ rest) held = blocks rest (list_to_set (gathered pre) ∪ held).
Proof.
  induction 1 as [|ev pre Hev _ (IHf & IHy & IHg & IHb)]; simpl.
  - repeat split. intros held. f_equal. set_solver.
  - destruct ev as [documents| |text|e]; simpl in *; try contradiction.
    + rewrite IHf, IHy, IHg, <- app_assoc. repeat split.
      intros held. rewrite IHb. f_equal. rewrite list_to_set_app_L. set_solver.
    + rewrite IHf, IHy, IHg. repeat split. exact IHb.
Qed.

Lemma only_chunk_phase post :
  Forall only_chunk post ->
  failure post = None /\ gathered post = [] /\ forall held, blocks post held = [].
Proof.
  induction 1 as [|ev post Hev _ (IHf & IHg & IHb)]; simpl; [repeat split|].
  destruct ev as [documents| |text|e]; simpl in *; try contradiction.
  repeat split; assumption.
Qed.

Lemma completed_run evs :
  completed evs ->
  failure evs = None
  /\ blocks evs ∅ = citation_block (base.elements (accumulated evs)).
Proof.
  intros (pre & post & -> & Hpre & Hpost).
  destruct (before_end_phase pre (LLMEnd :: post) Hpre) as (Hf & _ & Hg & Hb).
  destruct (only_chunk_phase post Hpost) as (Hf' & Hg' & Hb').
  rewrite Hf, Hb, accumulated_spec, Hg. simpl.
  rewrite Hf', Hg', Hb', !app_nil_r. split; [reflexivity|].
  f_equal. f_equal. set_solver.
Qed.

(** C1. When a request completes, the interface receives the chunks and
    then one message, once. The message carries one [Sources] element
    when the set accumulated during the request is not empty, and no
    element when it is empty. The element's text is the lines
    [source#page=N], joined by line feeds, of a duplicate-free
    enumeration of that set: one line for each pair the retrievals of the
    request added, however many chunks contributed it. Every cited pair
    is the pair of a retrieved document, and when the retrieved documents
    all carry a source and a page, the pair of each of them is cited. *)
Theorem citation_block_emitted_once runnable message :
  completed (runnable message) ->
  let evs := runnable message in
  let cited := base.elements (accumulated evs) in
  on_message runnable message
  = (Ok tt,
     map UiToken (yielded evs)
     ++ [UiMessage (mkMessage (concat_strings (yielded evs)) (citation_block cited))])
  /\ NoDup cited
  /\ (forall p, p ∈ cited <-> p ∈ gathered evs)
  /\ (forall p, p ∈ cited ->
        exists d, d ∈ retrieved evs
                  /\ metadata d !! "source" = Some (fst p)
                  /\ metadata d !! "page" = Some (snd p))
  /\ (Forall has_source_and_page (retrieved evs) ->
      forall d source page,
        d ∈ retrieved evs ->
        metadata d !! "source" = Some source ->
        metadata d !! "page" = Some page ->
        (source, page) ∈ cited)
  /\ (accumulated evs = ∅ -> citation_block cited = [])
  /\ (accumulated evs <> ∅ ->
      citation_block cited
      = [mkText "Sources" (join nl (map citation cited)) "inline"]).
Proof.
  intros Hdone evs cited. subst evs cited.
  destruct (completed_run _ Hdone) as [Hf Hb].
  rewrite on_message_spec, Hf, Hb.
  split; [reflexivity|]. split; [apply NoDup_elements|].
  assert (Hcited : forall p, p ∈ base.elements (accumulated (runnable message))
                             <-> p ∈ gathered (runnable message)).
  { intros p. rewrite elem_of_elements, accumulated_spec, elem_of_list_to_set.
    reflexivity. }
  split; [exact Hcited|]. split; [|split; [|split]].
  - intros p Hp. apply gathered_from, Hcited, Hp.
  - intros Hall d source page Hd Hs Hp.
    apply Hcited. eapply gathered_all; eassumption.
  - intros ->. rewrite elements_empty. reflexivity.
  - intros Hne.
    destruct (base.elements (accumulated (runnable message))) as [|p cited] eqn:He.
    + apply elements_empty_inv in He. apply leibniz_equiv in He. contradiction.
    + reflexivity.
Qed.

(** Three chunks of two pages are cited in two lines. *)
Lemma citation_block_emitted_once_witness :
  on_message Demo.complete_run "q"
  = (Ok tt,
     [UiToken "Gen"; UiToken "AI";
      UiMessage (mkMessage "GenAI"
                   [mkText "Sources" (join nl ["A#page=1"; "B#page=2"]) "inline"])]).
Proof.
  destruct (citation_block_emitted_once Demo.complete_run "q") as [Hrun _].
  - exists [RetrieverEnd [Demo.docA1; Demo.docA1'; Demo.docB2]; Chunk "Gen"; Chunk "AI"],
           [].
    split; [reflexivity|]. split; repeat constructor.
  - rewrite Hrun. vm_compute. reflexivity.
Defined.

(** Without a retrieved chunk, no element is attached. *)
Example no_citation_without_sources :
  on_message (fun _ => [RetrieverEnd []; Chunk "Hello"; LLMEnd]) "q"
  = (Ok tt, [UiToken "Hello"; UiMessage (mkMessage "Hello" [])]).
Proof. vm_compute. reflexivity. Qed.

(** *** Where citations come from *)

Lemma citation_block_elem cited t :
  t ∈ citation_block cited ->
  t = mkText "Sources" (join nl (map citation cited)) "inline".
Proof.
  destruct cited as [|p cited]; simpl; intros H.
  - inversion H.
  - apply list_elem_of_singleton in H. exact H.
Qed.

Lemma blocks_from evs held t :
  t ∈ blocks evs held ->
  exists cited,
    t = mkText "Sources" (join nl (map citation cited)) "inline"
    /\ forall p, p ∈ cited ->
         p ∈ held
         \/ exists d, d ∈ retrieved evs
                      /\ metadata d !! "source" = Some (fst p)
                      /\ metadata d !! "page" = Some (snd p).
Proof.
  revert held. induction evs as [|ev rest IH]; intros held; simpl.
  - intros H. inversion H.
  - destruct ev as [documents| |text|e]; simpl.
    + intros H. destruct (IH _ H) as (cited & Ht & Hfrom).
      exists cited. split; [exact Ht|]. intros p Hp.
      destruct (Hfrom p Hp) as [Hheld|(d & Hd & Hmeta)].
      * apply elem_of_union in Hheld as [Hobs|Hheld]; [|left; exact Hheld].
        apply elem_of_list_to_set in Hobs.
        destruct (observed_pairs_from _ _ Hobs) as (d & Hd & Hmeta).
        right. exists d. rewrite elem_of_app. auto.
      * right. exists d. rewrite elem_of_app. auto.
    + rewrite elem_of_app. intros [H|H].
      * exists (base.elements held). split; [exact (citation_block_elem _ _ H)|].
        intros p Hp. left. apply elem_of_elements. exact Hp.
      * exact (IH _ H).
    + exact (IH held).
    + intros H. inversion H.
Qed.

(** C4. The handler of a request starts with an empty set, and every
    line of a citation block delivered by [on_message] is the line of a
    [(source, page)] pair read from the metadata of a document that a
    retrieval of that same run returned. The set belongs to the call: a
    call's outcome is a function of its runnable and its message. *)
Theorem citations_only_from_this_request runnable message :
  sources new_call = ∅
  /\ forall m t,
       UiMessage m ∈ snd (on_message runnable message) ->
       t ∈ elements m ->
       exists cited,
         t = mkText "Sources" (join nl (map citation cited)) "inline"
         /\ forall p, p ∈ cited ->
              exists d, d ∈ retrieved (runnable message)
                        /\ metadata d !! "source" = Some (fst p)
                        /\ metadata d !! "page" = Some (snd p).
Proof.
  split; [reflexivity|]. intros m t Hm Ht.
  rewrite on_message_spec in Hm.
  destruct (failure (runnable message)); simpl in Hm.
  - apply list_elem_of_fmap in Hm as (token & Habs & _). discriminate Habs.
  - apply elem_of_app in Hm as [Hm|Hm].
    + apply list_elem_of_fmap in Hm as (token & Habs & _). discriminate Habs.
    + apply list_elem_of_singleton in Hm. injection Hm as ->. simpl in Ht.
      destruct (blocks_from _ _ _ Ht) as (cited & Heq & Hfrom).
      exists cited. split; [exact Heq|]. intros p Hp.
      destruct (Hfrom p Hp) as [Hempty|Hd]; [|exact Hd].
      apply not_elem_of_empty in Hempty. contradiction.
Qed.

(** The block of the completed run cites retrieved documents only. *)
Lemma citations_only_from_this_request_witness :
  exists cited,
    mkText "Sources" (join nl ["A#page=1"; "B#page=2"]) "inline"
    = mkText "Sources" (join nl (map citation cited)) "inline"
    /\ forall p, p ∈ cited ->
         exists d, d ∈ [Demo.docA1; Demo.docA1'; Demo.docB2]
                   /\ metadata d !! "source" = Some (fst p)
                   /\ metadata d !! "page" = Some (snd p).
Proof.
  destruct (citations_only_from_this_request Demo.complete_run "q") as [_ Hfrom].
  apply (Hfrom (mkMessage "GenAI"
                  [mkText "Sources" (join nl ["A#page=1"; "B#page=2"]) "inline"])).
  - assert (Hrun : snd (on_message Demo.complete_run "q")
                   = [UiToken "Gen"; UiToken "AI";
                      UiMessage (mkMessage "GenAI"
                        [mkText "Sources" (join nl ["A#page=1"; "B#page=2"]) "inline"])])
      by (vm_compute; reflexivity).
    rewrite Hrun, !elem_of_cons. right. right. left. reflexivity.
  - simpl. rewrite elem_of_cons. left. reflexivity.
Defined.

(** A pair collected by the previous request does not show up in the
    next one: each call starts from [new_call]. *)
Example second_request_starts_empty :
  map (on_message (fun q => if decide (q = "first")
                            then [RetrieverEnd [Demo.docA1]; Chunk "a"; LLMEnd]
                            else [RetrieverEnd []; Chunk "b"; LLMEnd]))
      ["first"; "second"]
  = [(Ok tt, [UiToken "a";
              UiMessage (mkMessage "a" [mkText "Sources" "A#page=1" "inline"])]);
     (Ok tt, [UiToken "b"; UiMessage (mkMessage "b" [])])].
Proof. vm_compute. reflexivity. Qed.

(** *** Streaming *)

(** C6. At every point of a run, the chunks yielded so far have all been
    delivered as tokens, in order, and nothing else has been delivered:
    no chunk waits for the end of the model's run or for the citations.
    The message that carries the citation block is delivered after the
    last token, and only when the run has not failed. *)
Theorem fragments_forwarded_as_they_arrive runnable message :
  let evs := runnable message in
  (forall n,
     ui (snd (astream_loop (take n evs) new_call))
     = map UiToken (yielded (take n evs)))
  /\ snd (on_message runnable message)
     = map UiToken (yielded evs)
       ++ match failure evs with
          | None => [UiMessage (mkMessage (concat_strings (yielded evs))
                                          (blocks evs ∅))]
          | Some _ => []
          end.
Proof.
  intros evs. split.
  - intros n. rewrite astream_loop_spec. reflexivity.
  - rewrite on_message_spec. fold evs.
    destruct (failure evs); simpl; [rewrite app_nil_r|]; reflexivity.
Qed.

(** After the first chunk of the completed run only that chunk has been
    delivered; the end of the model's run comes later. *)
Example first_token_before_citations :
  ui (snd (astream_loop (take 2 (Demo.complete_run "q")) new_call))
  = [UiToken "Gen"].
Proof. vm_compute. reflexivity. Qed.

(** *** Failures *)

(** C7, as the code has it. An exception that ends the run is not caught
    by [on_message]: the function raises it. The tokens delivered before
    it stay delivered, and no message, hence no citation block and no
    failure notice, is sent. *)
Theorem errors_leave_on_message runnable message e :
  failure (runnable message) = Some e ->
  on_message runnable message
  = (Raise e, map UiToken (yielded (runnable message)))
  /\ forall m, UiMessage m ∉ snd (on_message runnable message).
Proof.
  intros Hfail. rewrite on_message_spec, Hfail. split; [reflexivity|].
  intros m Hm. simpl in Hm.
  apply list_elem_of_fmap in Hm as (token & Habs & _). discriminate Habs.
Qed.

(** A failure of the model after one chunk. *)
Lemma errors_leave_on_message_witness :
  on_message Demo.failing_run "q"
  = (Raise (GenerationError "model failed"), [UiToken "Gen"]).
Proof.
  destruct (errors_leave_on_message Demo.failing_run "q"
              (GenerationError "model failed")) as [Hrun _].
  - reflexivity.
  - rewrite Hrun. reflexivity.
Defined.

(** C7 as stated does not hold: a generation failure and a retrieval
    failure both leave [on_message] as exceptions, and the interface gets
    no terminal message. *)
Lemma errors_are_not_caught :
  on_message Demo.failing_run "q"
  = (Raise (GenerationError "model failed"), [UiToken "Gen"])
  /\ ~ (exists delivered, on_message Demo.failing_run "q" = (Ok tt, delivered))
  /\ match on_chat_start (fun _ => Raise (RetrievalError "index search failed"))
                          (Demo.two_fragments Startup.hardcoded_model) with
     | Ok runnable =>
         on_message runnable "q"
         = (Raise (RetrievalError "index search failed"), [])
     | Raise _ => False
     end.
Proof.
  split; [vm_compute; reflexivity|].
  split; [intros [delivered Habs]; vm_compute in Habs; discriminate Habs|].
  vm_compute. reflexivity.
Qed.

(** *** The chain of [on_chat_start] *)

(** With the prompt of [on_chat_start], a request whose retrieval
    succeeds ends at the prompt: the retrieval callback fires, then the
    [KeyError] leaves [on_message]; the model is never called. *)
Lemma every_request_ends_at_the_prompt retriever model question docs :
  retriever question = Ok docs ->
  exists runnable,
    on_chat_start retriever model = Ok runnable
    /\ runnable question = [RetrieverEnd docs; Raised (KeyError "input")]
    /\ on_message runnable question = (Raise (KeyError "input"), []).
Proof.
  intros Hdocs.
  destruct (PromptFacts.format_raises_key_error docs question)
    as (prompt & Hprompt & _ & _ & Hformat).
  exists (chain retriever prompt model). unfold on_chat_start. rewrite Hprompt.
  split; [reflexivity|].
  assert (Hrun : chain retriever prompt model question
                 = [RetrieverEnd docs; Raised (KeyError "input")]).
  { unfold chain. rewrite Hdocs, Hformat. reflexivity. }
  split; [exact Hrun|].
  rewrite on_message_spec, Hrun. reflexivity.
Qed.

End ChatFacts.

(* ===================================================================== *)
(** ** More on the callbacks of [PostMessageHandler]                       *)
(* ===================================================================== *)

Module HandlerFacts.
Import Chat.

(** With both keys in every document the loop runs to its end. *)
Lemma on_retriever_end_returns documents c :
  Forall has_source_and_page documents ->
  fst (on_retriever_end documents c) = Ok tt.
Proof.
  intros Hall. revert c.
  induction Hall as [|d rest [[source Hs] [page Hp]] _ IH]; intros c; simpl.
  - reflexivity.
  - unfold getitem. rewrite Hs, Hp. apply IH.
Qed.

Lemma observed_pairs_app pre post :
  Forall has_source_and_page pre ->
  observed_pairs (pre ++ post) = observed_pairs pre ++ observed_pairs post.
Proof.
  induction 1 as [|d rest [[source Hs] [page Hp]] _ IH]; simpl.
  - reflexivity.
  - rewrite Hs, Hp, IH. reflexivity.
Qed.

(** X1. When every document handed to [on_retriever_end] carries a source
    and a page, the method returns normally; afterwards the set holds
    exactly the pairs it held before and the pairs of the documents, and
    the message and the interface are untouched. *)
Theorem on_retriever_end_collects_all documents c :
  Forall has_source_and_page documents ->
  fst (on_retriever_end documents c) = Ok tt
  /\ msg (snd (on_retriever_end documents c)) = msg c
  /\ ui (snd (on_retriever_end documents c)) = ui c
  /\ forall source page,
       (source, page) ∈ sources (snd (on_retriever_end documents c))
       <-> (source, page) ∈ sources c
           \/ exists d, d ∈ documents
                        /\ metadata d !! "source" = Some source
                        /\ metadata d !! "page" = Some page.
Proof.
  intros Hall. split; [exact (on_retriever_end_returns _ c Hall)|].
  rewrite ChatFacts.on_retriever_end_spec. simpl.
  split; [reflexivity|]. split; [reflexivity|].
  intros source page. rewrite elem_of_union, elem_of_list_to_set. split.
  - intros [Hobs|Hold]; [right|left; exact Hold].
    exact (ChatFacts.observed_pairs_from _ _ Hobs).
  - intros [Hold|(d & Hd & Hs & Hp)]; [right; exact Hold|left].
    eapply ChatFacts.observed_pairs_all; eassumption.
Qed.

(** Two chunks of one page and one of another leave two pairs. *)
Lemma on_retriever_end_collects_all_witness :
  (MStr "B", MInt 2)
  ∈ sources (snd (on_retriever_end [Demo.docA1; Demo.docA1'; Demo.docB2] new_call)).
Proof.
  destruct (on_retriever_end_collects_all [Demo.docA1; Demo.docA1'; Demo.docB2]
              new_call) as (_ & _ & _ & Hin).
  - repeat constructor; vm_compute; eauto.
  - apply Hin. right. exists Demo.docB2.
    split; [rewrite !elem_of_cons; auto|].
    split; vm_compute; reflexivity.
Defined.

(** X2. When the first document that lacks a key comes after documents
    that carry both, [on_retriever_end] raises [KeyError] for the key
    that is missing ([source] is looked up first), and the set holds what
    it held before and the pairs of the documents in front of that one:
    the documents behind it are not looked at. *)
Theorem on_retriever_end_stops_at_missing_key pre d post c :
  Forall has_source_and_page pre ->
  ~ has_source_and_page d ->
  exists key,
    fst (on_retriever_end (pre ++ d :: post) c) = Raise (KeyError key)
    /\ metadata d !! key = None
    /\ (key = "source"
        \/ (key = "page" /\ is_Some (metadata d !! "source")))
    /\ sources (snd (on_retriever_end (pre ++ d :: post) c))
       = list_to_set (observed_pairs pre) ∪ sources c.
Proof.
  intros Hpre Hd. revert c.
  induction Hpre as [|d0 rest [[source Hs] [page Hp]] _ IH]; intros c; simpl.
  - unfold getitem.
    destruct (metadata d !! "source") as [source|] eqn:Hs.
    + destruct (metadata d !! "page") as [page|] eqn:Hp.
      * exfalso. apply Hd. split; eauto.
      * exists "page". simpl. repeat split; eauto. set_solver.
    + exists "source". simpl. repeat split; eauto. set_solver.
  - unfold getitem. rewrite Hs, Hp.
    destruct (IH (mkCall (msg c) ({[ (source, page) ]} ∪ sources c) (ui c)))
      as (key & Hraise & Hnone & Hkey & Hsources).
    exists key. split; [exact Hraise|]. split; [exact Hnone|].
    split; [exact Hkey|]. rewrite Hsources. simpl. set_solver.
Qed.

(** A chunk without a page between two chunks with one. *)
Lemma on_retriever_end_stops_at_missing_key_witness :
  fst (on_retriever_end [Demo.docA1; Demo.docNoPage; Demo.docB2] new_call)
  = Raise (KeyError "page")
  /\ sources (snd (on_retriever_end [Demo.docA1; Demo.docNoPage; Demo.docB2]
                                    new_call))
     = {[ (MStr "A", MInt 1) ]}.
Proof.
  destruct (on_retriever_end_stops_at_missing_key
              [Demo.docA1] Demo.docNoPage [Demo.docB2] new_call)
    as (key & Hraise & Hnone & Hkey & Hsources).
  - repeat constructor; vm_compute; eauto.
  - intros [_ [page Hpage]]. vm_compute in Hpage. discriminate Hpage.
  - split.
    + vm_compute. reflexivity.
    + etransitivity; [exact Hsources|]. vm_compute. reflexivity.
Defined.

(** X3. The set keeps no count and no order: a retrieval reported twice
    leaves what it leaves when reported once, two retrievals leave the
    same set in either order, and a retrieval never removes a pair. *)
Theorem retrievals_accumulate_as_a_set a b c :
  fire (on_retriever_end a) (fire (on_retriever_end a) c)
  = fire (on_retriever_end a) c
  /\ fire (on_retriever_end a) (fire (on_retriever_end b) c)
     = fire (on_retriever_end b) (fire (on_retriever_end a) c)
  /\ sources c ⊆ sources (fire (on_retriever_end a) c).
Proof.
  unfold fire. rewrite !ChatFacts.on_retriever_end_spec. simpl.
  split; [|split].
  - f_equal. set_solver.
  - f_equal. set_solver.
  - set_solver.
Qed.

(** X4. [on_llm_end] never raises and changes neither the set, nor the
    text of the message, nor what the interface has received. Over an
    empty set it changes nothing at all; over a set that is not empty
    every call attaches the block again, so a run with two ends of a
    model run leaves two equal blocks. *)
Theorem on_llm_end_frame c :
  fst (on_llm_end c) = Ok tt
  /\ sources (fire on_llm_end c) = sources c
  /\ content (msg (fire on_llm_end c)) = content (msg c)
  /\ ui (fire on_llm_end c) = ui c
  /\ (sources c = ∅ -> fire on_llm_end c = c)
  /\ (sources c <> ∅ ->
      exists block,
        elements (msg (fire on_llm_end c)) = elements (msg c) ++ [block]
        /\ elements (msg (fire on_llm_end (fire on_llm_end c)))
           = elements (msg c) ++ [block; block]).
Proof.
  split.
  { unfold on_llm_end. destruct (size (sources c)); reflexivity. }
  unfold fire. rewrite !ChatFacts.on_llm_end_spec. simpl.
  split; [reflexivity|]. split; [reflexivity|]. split; [reflexivity|].
  split.
  - intros Hempty. rewrite Hempty, elements_empty. simpl.
    destruct c as [[text els] held u]. simpl in *. subst held.
    rewrite app_nil_r. reflexivity.
  - intros Hne.
    destruct (base.elements (sources c)) as [|p cited] eqn:He.
    + apply elements_empty_inv, leibniz_equiv in He. contradiction.
    + eexists. simpl. split; [reflexivity|].
      rewrite <- app_assoc. reflexivity.
Qed.

End HandlerFacts.

(* ===================================================================== *)
(** ** The lines of a citation block                                       *)
(* ===================================================================== *)

Module LinesFacts.
Import Chat Lines.

Lemma pretty_N_char_decimal n : decimal_char (pretty_N_char n) = true.
Proof. unfold pretty_N_char. repeat case_match; reflexivity. Qed.

Lemma pretty_N_go_decimal x s :
  all_chars decimal_char s = true ->
  all_chars decimal_char (pretty_N_go x s) = true.
Proof.
  revert s. induction (N.lt_wf_0 x) as [x _ IH]; intros s Hs.
  assert (x = 0 \/ 0 < x)%N as [->|Hpos] by lia.
  - rewrite pretty_N_go_0. exact Hs.
  - rewrite pretty_N_go_step by exact Hpos. apply IH.
    + apply N.div_lt; [exact Hpos|reflexivity].
    + simpl. rewrite pretty_N_char_decimal. exact Hs.
Qed.

Lemma pretty_N_decimal (x : N) : all_chars decimal_char (pretty x) = true.
Proof.
  unfold pretty, pretty_N. destruct (decide (x = 0%N)); [reflexivity|].
  apply pretty_N_go_decimal. reflexivity.
Qed.

(** [str()] of an integer is made of digits and the minus sign. *)
Lemma pretty_Z_decimal (z : Z) : all_chars decimal_char (pretty z) = true.
Proof.
  destruct z as [|p|p]; [reflexivity| |].
  - exact (pretty_N_decimal (Npos p)).
  - change (pretty (Zneg p)) with (String "-" (pretty (Npos p))).
    simpl. exact (pretty_N_decimal (Npos p)).
Qed.

Lemma all_chars_not_occurs ok c s :
  ok c = false -> all_chars ok s = true -> occurs c s = false.
Proof.
  intros Hc. induction s as [|x rest IH]; simpl; [reflexivity|].
  intros Hall. apply andb_true_iff in Hall as [Hx Hrest].
  destruct (Ascii.eqb_spec x c) as [->|_]; [congruence|exact (IH Hrest)].
Qed.

Lemma occurs_app c a b :
  occurs c (a ++ b)%string = occurs c a || occurs c b.
Proof.
  induction a as [|x a IH]; [reflexivity|].
  change (occurs c (String x (a ++ b)%string)
          = occurs c (String x a) || occurs c b).
  simpl. destruct (Ascii.eqb x c); [reflexivity|exact IH].
Qed.

(** A text is cut in one way only at a character that its right part
    does not contain. *)
Lemma cut_at_last c a1 b1 a2 b2 :
  occurs c b1 = false -> occurs c b2 = false ->
  (a1 ++ String c b1 = a2 ++ String c b2)%string ->
  a1 = a2 /\ b1 = b2.
Proof.
  intros H1 H2. revert a2.
  induction a1 as [|x a1 IH]; intros [|y a2] Heq.
  - injection Heq as ->. split; reflexivity.
  - change (String c b1 = String y (a2 ++ String c b2)%string) in Heq.
    injection Heq as _ ->. rewrite occurs_app in H1. simpl in H1.
    rewrite Ascii.eqb_refl, orb_true_r in H1. discriminate H1.
  - change (String x (a1 ++ String c b1)%string = String c b2) in Heq.
    injection Heq as _ <-. rewrite occurs_app in H2. simpl in H2.
    rewrite Ascii.eqb_refl, orb_true_r in H2. discriminate H2.
  - change (String x (a1 ++ String c b1)%string
            = String y (a2 ++ String c b2)%string) in Heq.
    injection Heq as -> Heq. destruct (IH _ Heq) as [-> ->].
    split; reflexivity.
Qed.

Lemma citation_inj (source1 source2 : string) (page1 page2 : Z) :
  citation (MStr source1, MInt page1) = citation (MStr source2, MInt page2) ->
  source1 = source2 /\ page1 = page2.
Proof.
  unfold citation. simpl. intros Heq.
  change (source1 ++ String "#" ("page=" ++ pretty page1)
          = source2 ++ String "#" ("page=" ++ pretty page2))%string in Heq.
  assert (Hno : forall z : Z, occurs "#" ("page=" ++ pretty z)%string = false).
  { intros z. rewrite occurs_app. simpl.
    apply (all_chars_not_occurs decimal_char); [reflexivity|].
    apply pretty_Z_decimal. }
  apply cut_at_last in Heq as [-> Hpage]; [|apply Hno|apply Hno].
  apply (inj (String.app "page=")) in Hpage.
  apply (inj pretty) in Hpage. subst. split; reflexivity.
Qed.

(** X5. For a source that is a string and a page that is an integer, the
    line [source#page=N] determines the pair: two pairs have the same
    line exactly when they are the same pair, whatever characters the
    source contains. *)
Theorem citation_determines_pair (source1 source2 : string) (page1 page2 : Z) :
  citation (MStr source1, MInt page1) = citation (MStr source2, MInt page2)
  <-> (source1, page1) = (source2, page2).
Proof.
  split; [|intros [= -> ->]; reflexivity].
  intros Heq. apply citation_inj in Heq as [-> ->]. reflexivity.
Qed.

(** A source that is the integer 1 and a source that is the string "1"
    are two pairs with one line. *)
Example citation_of_untyped_source :
  citation (MInt 1, MInt 2) = citation (MStr "1", MInt 2).
Proof. vm_compute. reflexivity. Qed.

Lemma split_on_whole sep a :
  occurs sep a = false -> split_on sep a = [a].
Proof.
  induction a as [|x a IH]; simpl; [reflexivity|].
  destruct (Ascii.eqb x sep); [discriminate|].
  intros Ha. rewrite (IH Ha). reflexivity.
Qed.

Lemma split_on_cut sep a b :
  occurs sep a = false ->
  split_on sep (a ++ String sep b)%string = a :: split_on sep b.
Proof.
  induction a as [|x a IH].
  - intros _. change (split_on sep (String sep b) = "" :: split_on sep b).
    simpl. rewrite Ascii.eqb_refl. reflexivity.
  - intros Ha. simpl in Ha.
    change (split_on sep (String x (a ++ String sep b)%string)
            = String x a :: split_on sep b).
    simpl. destruct (Ascii.eqb x sep); [discriminate|].
    rewrite (IH Ha). reflexivity.
Qed.

(** Cutting at line feeds what [join] wrote with line feeds gives the
    items back, when there is an item and none contains a line feed. *)
Lemma split_join items :
  items <> [] ->
  Forall (fun item => occurs lf item = false) items ->
  split_on lf (join nl items) = items.
Proof.
  intros Hne Hall. induction Hall as [|item rest Hitem Hrest IH]; [contradiction|].
  destruct rest as [|item' rest'].
  - simpl. apply split_on_whole. exact Hitem.
  - change (join nl (item :: item' :: rest'))
      with (item ++ String lf (join nl (item' :: rest')))%string.
    rewrite split_on_cut by exact Hitem.
    rewrite IH by discriminate. reflexivity.
Qed.

(** The line of a string source without line feed and an integer page
    has no line feed. *)
Lemma citation_one_line (source : string) (page : Z) :
  occurs lf source = false ->
  occurs lf (citation (MStr source, MInt page)) = false.
Proof.
  intros Hsource. unfold citation. simpl.
  rewrite !occurs_app, Hsource. simpl.
  apply (all_chars_not_occurs decimal_char); [reflexivity|].
  apply pretty_Z_decimal.
Qed.

(** X6. When the handler's set is not empty and holds string sources
    without line feed and integer pages, the text of the block that
    [on_llm_end] attaches, cut at its line feeds, is the list of the
    lines of the set's pairs: as many lines as the set has pairs, no line
    twice. *)
Theorem citation_block_lines c :
  sources c <> ∅ ->
  plain_sources (sources c) ->
  exists block,
    elements (msg (fire on_llm_end c)) = elements (msg c) ++ [block]
    /\ split_on lf (text_content block)
       = map citation (base.elements (sources c))
    /\ length (split_on lf (text_content block)) = size (sources c)
    /\ NoDup (split_on lf (text_content block)).
Proof.
  intros Hne Hplain. unfold fire. rewrite ChatFacts.on_llm_end_spec. simpl.
  assert (Hlines : split_on lf (join nl (map citation (base.elements (sources c))))
                   = map citation (base.elements (sources c))).
  { apply split_join.
    - intros Hnil. apply fmap_nil_inv in Hnil.
      apply elements_empty_inv, leibniz_equiv in Hnil. contradiction.
    - apply Forall_fmap, Forall_forall. intros p Hp.
      apply elem_of_elements in Hp.
      destruct (Hplain p Hp) as (source & page & -> & Hsource).
      apply citation_one_line. exact Hsource. }
  destruct (base.elements (sources c)) as [|p cited] eqn:He.
  { apply elements_empty_inv, leibniz_equiv in He. contradiction. }
  eexists. split; [reflexivity|]. cbn [text_content].
  rewrite Hlines. split; [reflexivity|]. split.
  - rewrite length_fmap. unfold size, set_size. simpl. rewrite He. reflexivity.
  - apply NoDup_fmap_2_strong.
    + intros p1 p2 Hp1 Hp2 Heq. rewrite <- He in Hp1, Hp2.
      apply elem_of_elements in Hp1, Hp2.
      destruct (Hplain p1 Hp1) as (s1 & z1 & -> & _).
      destruct (Hplain p2 Hp2) as (s2 & z2 & -> & _).
      apply citation_inj in Heq as [-> ->]. reflexivity.
    + rewrite <- He. apply NoDup_elements.
Qed.

(** Two pairs, two lines. *)
Lemma citation_block_lines_witness :
  exists block,
    split_on lf (text_content block) = ["A#page=1"; "B#page=2"]
    /\ NoDup (split_on lf (text_content block)).
Proof.
  destruct (citation_block_lines Cases.call_with_sources)
    as (block & _ & Hsplit & _ & Hnodup).
  - intros Habs.
    apply (not_elem_of_empty (C:=gset Pair) (MStr "A", MInt 1)).
    rewrite <- Habs. simpl. apply elem_of_union_l, elem_of_singleton. reflexivity.
  - intros p Hp. apply elem_of_union in Hp as [Hp|Hp];
      apply elem_of_singleton in Hp; subst p;
      eexists _, _; split; reflexivity.
  - exists block. split; [|exact Hnodup].
    rewrite Hsplit. vm_compute. reflexivity.
Defined.

End LinesFacts.

(* ===================================================================== *)
(** ** More on the start-up script                                         *)
(* ===================================================================== *)

Module StartupMore.
Import Store Startup StartupFacts.



(** X7. The script reads the [retriever] and [llama_cpp] sections of the
    configuration before anything else happens, although it uses neither
    value: a configuration that lacks one of them stops the start-up with
    the error of that lookup, with nothing ingested, nothing embedded and
    the disk as it was. *)
Theorem startup_requires_unused_sections env w config section embedding_config e :
  yaml_files env !! config_chatbot_dir env = Some config ->
  subscript config "embedding_model" = Ok section ->
  subscript section "sentence-transformers" = Ok embedding_config ->
  subscript config "retriever" = Raise e
  \/ (exists retriever_config, subscript config "retriever" = Ok retriever_config)
     /\ subscript config "llama_cpp" = Raise e ->
  startup env w
  = (Raise e,
     mkWorld (disk w) (embedded w)
             (events w ++ [EvLoadConfig (config_chatbot_dir env)])).
Proof.
  intros Hconfig Hsection Hemb Hmissing.
  unfold startup. run_script. rewrite Hconfig, Hsection, Hemb.
  destruct Hmissing as [Hretr|[[retriever_config Hretr] Hllama]].
  - rewrite Hretr. reflexivity.
  - rewrite Hretr, Hllama. reflexivity.
Qed.

(** A configuration without [llama_cpp] section. *)
Lemma startup_requires_unused_sections_witness :
  boot (Cases.env_config Cases.config_without_llama) ∅
  = (Raise (KeyError "llama_cpp"),
     mkWorld ∅ [] [EvLoadConfig "config/chatbot.yml"]).
Proof.
  unfold boot.
  rewrite (startup_requires_unused_sections
             (Cases.env_config Cases.config_without_llama) (mkWorld ∅ [] [])
             Cases.config_without_llama
             (YMap [("sentence-transformers", YStr "all-MiniLM-L6-v2")])
             (YStr "all-MiniLM-L6-v2") (KeyError "llama_cpp")).
  - reflexivity.
  - vm_compute. reflexivity.
  - reflexivity.
  - reflexivity.
  - right. split; [eexists|]; reflexivity.
Defined.



(** X9. Ingestion comes before the index is looked for, so a failure of
    [process_pdf] stops the start-up whether or not a collection is on
    the disk: the error of [process_pdf] is the error of the start-up, and
    the store is neither loaded nor built. *)
Theorem ingestion_failure_stops_startup env w config section embedding_config
    retriever_config llama_config e :
  yaml_files env !! config_chatbot_dir env = Some config ->
  subscript config "embedding_model" = Ok section ->
  subscript section "sentence-transformers" = Ok embedding_config ->
  subscript config "retriever" = Ok retriever_config ->
  subscript config "llama_cpp" = Ok llama_config ->
  process_pdf env (chatbot_dir env) = Raise e ->
  startup env w
  = (Raise e,
     mkWorld (disk w) (embedded w)
       (events w
        ++ [EvLoadConfig (config_chatbot_dir env);
            EvEmbeddingModel
              (mkEmbeddings embedding_config "cpu" (huggingface_token env) true);
            EvProcessPdf (chatbot_dir env)])).
Proof.
  intros Hconfig Hsection Hemb Hretr Hllama Hpdf.
  unfold startup. run_script.
  rewrite Hconfig, Hsection, Hemb, Hretr, Hllama, Hpdf.
  rewrite <- !app_assoc. reflexivity.
Qed.

(** The index is on the disk and a document cannot be read. *)
Lemma ingestion_failure_stops_startup_witness :
  boot Cases.env_bad_pdf Demo.disk_with_index
  = (Raise (IngestionError "unreadable.pdf"),
     mkWorld Demo.disk_with_index []
       [EvLoadConfig "config/chatbot.yml";
        EvEmbeddingModel Demo.embeddings; EvProcessPdf "data/pdf"]).
Proof.
  unfold boot.
  rewrite (ingestion_failure_stops_startup Cases.env_bad_pdf
             (mkWorld Demo.disk_with_index [] []) Demo.config
             (YMap [("sentence-transformers", YStr "all-MiniLM-L6-v2")])
             (YStr "all-MiniLM-L6-v2")
             (YMap [("k", YInt 5)])
             (YMap [("model_path", YStr "models/llama.gguf");
                    ("n_ctx", YInt 4096); ("n_batch", YInt 64);
                    ("n_threads", YInt 8); ("temperature", YNum (1 # 10))])
             (IngestionError "unreadable.pdf")).
  - reflexivity.
  - vm_compute. reflexivity.
  - reflexivity.
  - reflexivity.
  - reflexivity.
  - reflexivity.
  - reflexivity.
Defined.

(** After a start-up that succeeded the index file holds the collection
    the store serves. *)
Lemma index_on_disk_after_startup env w app w' :
  startup env w = (Ok app, w') ->
  disk w' !! index_file = Some (collection (app_vectorstore app)).
Proof.
  intros H. apply startup_outcome in H as (ecfg & splits & _ & H). cbv zeta in H.
  destruct (disk w !! index_file) as [es|] eqn:Hdisk; destruct H as [-> ->]; simpl.
  - exact Hdisk.
  - apply lookup_insert_eq.
Qed.

(** X10. Starting again in the same surroundings, on the disk a start-up
    has left, gives the same application, that is the same embedding
    model, store, retriever and model, with nothing embedded again and
    the disk unchanged: what was built is what is loaded. *)
Theorem restart_loads_what_was_built env w app w' :
  startup env w = (Ok app, w') ->
  exists w'',
    startup env w' = (Ok app, w'')
    /\ disk w'' = disk w'
    /\ embedded w'' = embedded w'.
Proof.
  intros H.
  pose proof (index_on_disk_after_startup _ _ _ _ H) as Hindex.
  apply startup_inv in H
    as (config & section & ecfg & rcfg & lcfg & splits & vs & w1
        & Hconfig & Hsection & Hemb & Hretr & Hllama & Hsplits & Hopen & -> & ->).
  cbv zeta in Hopen. simpl in Hindex.
  assert (Hvs : vs = mkChroma "data/vectorstore"
                       (mkEmbeddings ecfg "cpu" (huggingface_token env) true)
                       (collection vs)).
  { destruct (disk w !! index_file) as [es|] eqn:Hdisk.
    - rewrite (open_vectorstore_found _ _ _ _ es) in Hopen by exact Hdisk.
      injection Hopen as <- _. reflexivity.
    - rewrite open_vectorstore_missing in Hopen by exact Hdisk.
      injection Hopen as <- _. reflexivity. }
  rewrite (startup_run env _ config section ecfg rcfg lcfg splits)
    by assumption.
  rewrite (open_vectorstore_found _ _ _ _ (collection vs)) by exact Hindex.
  rewrite <- Hvs. eexists. split; [reflexivity|]. split; reflexivity.
Qed.

(** The disk was empty; the second start finds the index. *)
Lemma restart_loads_what_was_built_witness :
  exists w'',
    startup Demo.env Demo.built_world = (Ok Demo.built_app, w'')
    /\ disk w'' = disk Demo.built_world
    /\ embedded w'' = embedded Demo.built_world.
Proof.
  apply (restart_loads_what_was_built Demo.env (mkWorld ∅ [] [])).
  vm_compute. reflexivity.
Defined.



(** X12. The embedding model is the one the configuration names under
    [embedding_model] / [sentence-transformers], on the CPU, with the
    token of the constants; the store searches with that same model. *)
Theorem embedding_model_from_config env w app w' config section embedding_config :
  startup env w = (Ok app, w') ->
  yaml_files env !! config_chatbot_dir env = Some config ->
  subscript config "embedding_model" = Ok section ->
  subscript section "sentence-transformers" = Ok embedding_config ->
  app_embedding_model app
  = mkEmbeddings embedding_config "cpu" (huggingface_token env) true
  /\ embedding_function (app_vectorstore app) = app_embedding_model app
  /\ vectorstore (app_retriever app) = app_vectorstore app.
Proof.
  intros H Hconfig Hsection Hemb.
  pose proof (startup_inv _ _ _ _ H)
    as (config' & section' & ecfg & rcfg & lcfg & splits & vs & w1
        & Hconfig' & Hsection' & Hemb' & _ & _ & _ & Hopen & -> & _).
  rewrite Hconfig in Hconfig'. injection Hconfig' as <-.
  rewrite Hsection in Hsection'. injection Hsection' as <-.
  rewrite Hemb in Hemb'. injection Hemb' as <-.
  simpl. split; [reflexivity|]. split; [|reflexivity].
  cbv zeta in Hopen.
  destruct (disk w !! index_file) as [es|] eqn:Hdisk.
  - rewrite (open_vectorstore_found _ _ _ _ es) in Hopen by exact Hdisk.
    injection Hopen as <- _. reflexivity.
  - rewrite open_vectorstore_missing in Hopen by exact Hdisk.
    injection Hopen as <- _. reflexivity.
Qed.

(** The configured identifier reaches the embedding model. *)
Lemma embedding_model_from_config_witness :
  model_name (app_embedding_model Demo.built_app) = YStr "all-MiniLM-L6-v2".
Proof.
  destruct (embedding_model_from_config Demo.env (mkWorld ∅ [] [])
              Demo.built_app Demo.built_world Demo.config
              (YMap [("sentence-transformers", YStr "all-MiniLM-L6-v2")])
              (YStr "all-MiniLM-L6-v2")) as [Hmodel _].
  - vm_compute. reflexivity.
  - vm_compute. reflexivity.
  - reflexivity.
  - reflexivity.
  - rewrite Hmodel. reflexivity.
Defined.

(** X13. After a start-up that built the index, every query is answered
    with chunks that ingestion returned: three of them, or all of them
    when ingestion returned fewer than three. *)
Theorem retrieval_returns_ingested_chunks env w app w' splits query :
  startup env w = (Ok app, w') ->
  disk w !! index_file = None ->
  process_pdf env (chatbot_dir env) = Ok splits ->
  exists docs,
    get_relevant_documents (embed env) (app_retriever app) query = Ok docs
    /\ length docs = Nat.min 3 (length splits)
    /\ forall d, d ∈ docs -> d ∈ splits.
Proof.
  intros H Hdisk Hsplits.
  apply startup_outcome in H as (ecfg & splits' & Hsplits' & H).
  rewrite Hsplits in Hsplits'. injection Hsplits' as <-.
  cbv zeta in H. rewrite Hdisk in H. destruct H as [-> _].
  eexists. split; [reflexivity|]. simpl.
  unfold similarity_search. simpl. split.
  - rewrite length_map, length_take, StoreFacts.length_rank.
    unfold embed_documents. rewrite length_map. reflexivity.
  - intros d Hd. apply list_elem_of_fmap in Hd as (entry & -> & Hentry).
    apply subseteq_take in Hentry. apply StoreFacts.elem_of_rank in Hentry.
    unfold embed_documents in Hentry.
    apply list_elem_of_fmap in Hentry as (d & -> & Hd). exact Hd.
Qed.

(** Four chunks ingested, three returned, all of them ingested. *)
Lemma retrieval_returns_ingested_chunks_witness :
  exists docs,
    get_relevant_documents Demo.embed_length (app_retriever Demo.built_app)
                           "business" = Ok docs
    /\ length docs = 3%nat
    /\ forall d, d ∈ docs -> d ∈ Demo.chunks.
Proof.
  apply (retrieval_returns_ingested_chunks Demo.env (mkWorld ∅ [] [])
           Demo.built_app Demo.built_world Demo.chunks "business").
  - vm_compute. reflexivity.
  - reflexivity.
  - reflexivity.
Defined.

End StartupMore.

(* ===================================================================== *)
(** ** More on the prompt and the chain                                    *)
(* ===================================================================== *)

Module ChainFacts.
Import Prompt Chat.

Lemma string_length_app (a b : string) :
  String.length (a ++ b)%string = (String.length a + String.length b)%nat.
Proof.
  induction a as [|x a IH]; [reflexivity|].
  change (S (String.length (a ++ b)%string)
          = S (String.length a + String.length b)).
  rewrite IH. reflexivity.
Qed.

Lemma join_cons sep item item' rest :
  join sep (item :: item' :: rest)
  = (item ++ sep ++ join sep (item' :: rest))%string.
Proof. reflexivity. Qed.

Lemma join_app sep a b :
  a <> [] -> b <> [] ->
  join sep (a ++ b) = (join sep a ++ sep ++ join sep b)%string.
Proof.
  intros Ha Hb. induction a as [|item a IH]; [contradiction|].
  destruct a as [|item' a].
  - destruct b as [|item' b]; [contradiction|]. reflexivity.
  - change ((item :: item' :: a) ++ b) with (item :: (item' :: a) ++ b).
    change ((item' :: a) ++ b) with (item' :: a ++ b) at 1.
    rewrite join_cons, (join_cons sep item item' a).
    change (item' :: a ++ b) with ((item' :: a) ++ b).
    rewrite IH by discriminate.
    rewrite !ChatFacts.string_app_assoc. reflexivity.
Qed.

(** X14. The context of two retrieval results put one after the other is
    the context of the first, a blank line, and the context of the
    second: [format_docs] keeps the order of the chunks and separates any
    two neighbours in the same way. *)
Theorem format_docs_app (front back : list Document) :
  front <> [] -> back <> [] ->
  format_docs (front ++ back)
  = (format_docs front ++ (nl ++ nl) ++ format_docs back)%string.
Proof.
  intros Hfront Hback. unfold format_docs. rewrite map_app.
  apply join_app.
  - destruct front; [contradiction|discriminate].
  - destruct back; [contradiction|discriminate].
Qed.

(** Two chunks, then one. *)
Lemma format_docs_app_witness :
  format_docs [Demo.docA1; Demo.docB2; Demo.docB7]
  = (format_docs [Demo.docA1; Demo.docB2] ++ (nl ++ nl)
     ++ format_docs [Demo.docB7])%string.
Proof.
  apply (format_docs_app [Demo.docA1; Demo.docB2] [Demo.docB7]); discriminate.
Defined.

(** X15. The context is as long as the texts of the chunks together,
    plus two characters between any two neighbours; for no chunk it is
    empty. *)
Theorem format_docs_length (docs : list Document) :
  String.length (format_docs docs)
  = (sum_list (map (fun d => String.length (page_content d)) docs)
     + 2 * (length docs - 1))%nat.
Proof.
  unfold format_docs. induction docs as [|d docs IH]; [reflexivity|].
  destruct docs as [|d' docs].
  - simpl. lia.
  - change (map page_content (d :: d' :: docs))
      with (page_content d :: page_content d' :: map page_content docs).
    rewrite join_cons, !string_length_app.
    change (map page_content (d' :: docs))
      with (page_content d' :: map page_content docs) in IH.
    rewrite IH. simpl. lia.
Qed.




Lemma yielded_chunks fragments rest :
  yielded (map Chunk fragments ++ rest) = fragments ++ yielded rest.
Proof.
  induction fragments as [|f fragments IH]; simpl; [reflexivity|].
  rewrite IH. reflexivity.
Qed.

Lemma failure_chunks fragments rest :
  failure (map Chunk fragments ++ rest) = failure rest.
Proof. induction fragments as [|f fragments IH]; simpl; auto. Qed.

Lemma blocks_chunks fragments rest held :
  blocks (map Chunk fragments ++ rest) held = blocks rest held.
Proof. induction fragments as [|f fragments IH]; simpl; auto. Qed.

(** X17. With a prompt that renders, the chain of [on_chat_start] hands
    the model the rendered text and passes its fragments on in order.
    When the model ends normally the message follows with the fragments
    as its text and with the citations of the retrieved documents; when
    the model fails the fragments it had produced have been delivered and
    the failure leaves [on_message]. *)
Theorem chain_streams_the_model retriever prompt model question docs text
    fragments failed :
  retriever question = Ok docs ->
  format prompt (chain_inputs docs question) = Ok text ->
  model (to_string text) = (fragments, failed) ->
  on_message (chain retriever prompt model) question
  = match failed with
    | None =>
        (Ok tt,
         map UiToken fragments
         ++ [UiMessage
               (mkMessage (concat_strings fragments)
                  (citation_block
                     (base.elements (list_to_set (observed_pairs docs)
                                     : gset Pair))))])
    | Some e => (Raise e, map UiToken fragments)
    end.
Proof.
  intros Hdocs Htext Hmodel. rewrite ChatFacts.on_message_spec.
  unfold chain. rewrite Hdocs, Htext, Hmodel. simpl.
  rewrite failure_chunks, yielded_chunks, blocks_chunks.
  destruct failed as [e|]; simpl.
  - rewrite app_nil_r. reflexivity.
  - rewrite !app_nil_r, union_empty_r_L. reflexivity.
Qed.

(** A prompt with the fields [context] and [question]. *)
Lemma chain_streams_the_model_witness :
  on_message (chain (fun _ => Ok [Demo.docA1; Demo.docB2])
                    Cases.prompt_with_question
                    (Demo.two_fragments Startup.hardcoded_model)) "q"
  = (Ok tt,
     [UiToken "Gen"; UiToken "AI";
      UiMessage (mkMessage "GenAI"
                   [mkText "Sources" (join nl ["A#page=1"; "B#page=2"]) "inline"])]).
Proof.
  rewrite (chain_streams_the_model _ _ _ "q" [Demo.docA1; Demo.docB2]
             (concat_strings ["Context: "; format_docs [Demo.docA1; Demo.docB2];
                              " Question: "; "q"])
             ["Gen"; "AI"] None).
  - vm_compute. reflexivity.
  - reflexivity.
  - vm_compute. reflexivity.
  - reflexivity.
Defined.

(** X18. When retrieval fails, the runnable of [on_chat_start] ends at
    once with that failure: the handler sees no document, the model is
    not called, the interface receives nothing, and the failure leaves
    [on_message]. *)
Theorem retrieval_failure_ends_the_request retriever model runnable question e :
  on_chat_start retriever model = Ok runnable ->
  retriever question = Raise e ->
  runnable question = [Raised e]
  /\ on_message runnable question = (Raise e, []).
Proof.
  unfold on_chat_start. intros Hstart Hfail.
  destruct (from_template template) as [prompt|]; [|discriminate].
  injection Hstart as <-.
  assert (Hrun : chain retriever prompt model question = [Raised e]).
  { unfold chain. rewrite Hfail. reflexivity. }
  split; [exact Hrun|]. rewrite ChatFacts.on_message_spec, Hrun. reflexivity.
Qed.

(** A retriever that fails. *)
Lemma retrieval_failure_ends_the_request_witness :
  match on_chat_start (fun _ => Raise (RetrievalError "index search failed"))
                      (Demo.two_fragments Startup.hardcoded_model) with
  | Ok runnable =>
      on_message runnable "q" = (Raise (RetrievalError "index search failed"), [])
  | Raise _ => False
  end.
Proof.
  destruct (on_chat_start (fun _ => Raise (RetrievalError "index search failed"))
                          (Demo.two_fragments Startup.hardcoded_model))
    as [runnable|e] eqn:Hstart.
  - exact (proj2 (retrieval_failure_ends_the_request _ _ runnable "q"
                    (RetrievalError "index search failed") Hstart eq_refl)).
  - vm_compute in Hstart. discriminate Hstart.
Defined.

(** X19. In a started process every message ends the same way: the
    retriever returns its chunks, the prompt raises [KeyError] for
    [input], and [on_message] raises it with nothing delivered to the
    interface. *)
Theorem started_process_answers_no_message env w app w' :
  Startup.startup env w = (Ok app, w') ->
  exists runnable,
    session_runnable env app = Ok runnable
    /\ forall question,
         on_message runnable question = (Raise (KeyError "input"), []).
Proof.
  intros H. apply StartupFacts.startup_inv in H
    as (config & section & ecfg & rcfg & lcfg & splits & vs & w1
        & _ & _ & _ & _ & _ & _ & _ & -> & _).
  unfold session_runnable. simpl.
  destruct (PromptFacts.format_raises_key_error [] "")
    as (prompt & Hprompt & _).
  exists (chain (Store.get_relevant_documents (Startup.embed env)
                   (Store.as_retriever vs "similarity" 3))
                prompt
                (Startup.llm_stream env Startup.hardcoded_model)).
  split; [unfold on_chat_start; rewrite Hprompt; reflexivity|].
  intros question.
  destruct (ChatFacts.every_request_ends_at_the_prompt
              (Store.get_relevant_documents (Startup.embed env)
                 (Store.as_retriever vs "similarity" 3))
              (Startup.llm_stream env Startup.hardcoded_model)
              question
              (Store.similarity_search (Startup.embed env) vs question 3))
    as (runnable & Hstart & _ & Hmessage); [reflexivity|].
  unfold on_chat_start in Hstart. rewrite Hprompt in Hstart.
  injection Hstart as <-. exact Hmessage.
Qed.

(** The process started on an empty disk. *)
Lemma started_process_answers_no_message_witness :
  exists runnable,
    session_runnable Demo.env Demo.built_app = Ok runnable
    /\ on_message runnable "What is GenAI?" = (Raise (KeyError "input"), []).
Proof.
  destruct (started_process_answers_no_message Demo.env
              (Startup.mkWorld ∅ [] []) Demo.built_app Demo.built_world)
    as (runnable & Hsession & Hall).
  - vm_compute. reflexivity.
  - exists runnable. split; [exact Hsession|apply Hall].
Defined.

End ChainFacts.
